(** * The [Answer] component of the chat frontend

    A shallow embedding of [app/frontend/src/components/Answer/Answer.tsx]:
    the local UI state of one answer bubble, its event handlers, the parts
    of the rendered view that decide which handler a user can reach, and the
    properties of the component's observable contract. *)

From Stdlib Require Import String Ascii DecimalString.
From Stdlib Require Import List NArith Arith Bool Lia.
Import ListNotations.

Local Open Scope list_scope.

(** ** JavaScript strings

    A JavaScript string is a sequence of UTF-16 code units.  A regular
    expression without the [u] flag and [String.prototype.trim] both work
    on code units, so this is the level the component is modelled at. *)

Module JS.

Definition code_unit := N.
Definition jsstring := list code_unit.

(** String literals of the source are ASCII; [lit] reads one. *)
Definition lit (s : String.string) : jsstring :=
  map Ascii.N_of_ascii (String.list_ascii_of_string s).

Arguments lit s%_string_scope.

(** Truthiness of a string value: only the empty string is falsy. *)
Definition truthy (s : jsstring) : bool :=
  match s with [] => false | _ :: _ => true end.

(** Template literal [`${n}`] for a non-negative integer. *)
Definition of_nat (n : nat) : jsstring :=
  lit (DecimalString.NilZero.string_of_uint (Nat.to_uint n)).

(** *** [String.prototype.trim]

    The code units removed by [trim]: WhiteSpace and LineTerminator of
    ECMA-262 (TAB, LF, VT, FF, CR, SP, NBSP, the Unicode space separators,
    LS, PS and the byte order mark). *)
Definition is_white_space (c : code_unit) : bool :=
  ((9 <=? c) && (c <=? 13) ||
   (c =? 32) || (c =? 160) || (c =? 5760) ||
   ((8192 <=? c) && (c <=? 8202)) ||
   (c =? 8232) || (c =? 8233) || (c =? 8239) || (c =? 8287) ||
   (c =? 12288) || (c =? 65279))%N.

Fixpoint trim_start (s : jsstring) : jsstring :=
  match s with
  | [] => []
  | c :: t => if is_white_space c then trim_start t else s
  end.

Definition trim_end (s : jsstring) : jsstring :=
  rev (trim_start (rev s)).

Definition trim (s : jsstring) : jsstring :=
  trim_end (trim_start s).

(** *** Regular expressions

    The fragment of the pattern language that the component uses, matched
    the way the language specifies: by backtracking, alternatives tried
    left to right, quantifiers greedy.  [rmatch r s k] matches [r] at the
    start of [s] and hands the remaining input to the continuation [k]; it
    fails over to the next choice when [k] fails. *)
Inductive regex : Type :=
| REmpty
| RChar (c : code_unit)
| RNoneOf (cs : list code_unit)
| RDigit
| RSeq (r1 r2 : regex)
| RAlt (r1 r2 : regex)
| RStar (r : regex).

Definition RPlus (r : regex) : regex := RSeq r (RStar r).

Fixpoint RLit (s : jsstring) : regex :=
  match s with
  | [] => REmpty
  | c :: t => RSeq (RChar c) (RLit t)
  end.

Definition is_digit (c : code_unit) : bool := ((48 <=? c) && (c <=? 57))%N.

Definition mem (c : code_unit) (cs : list code_unit) : bool :=
  existsb (N.eqb c) cs.

Definition one (p : code_unit -> bool) (s : jsstring)
    (k : jsstring -> option jsstring) : option jsstring :=
  match s with
  | c :: t => if p c then k t else None
  | [] => None
  end.

Definition orelse (a b : option jsstring) : option jsstring :=
  match a with Some x => Some x | None => b end.

(** The greedy loop of a quantifier over a matcher [m] of the quantified
    pattern: one more iteration first, the continuation second; an
    iteration that consumes nothing is rejected, so [length s] rounds of
    [fuel] are all the loop can use. *)
Fixpoint star_loop
    (m : jsstring -> (jsstring -> option jsstring) -> option jsstring)
    (k : jsstring -> option jsstring) (fuel : nat) (s : jsstring)
  : option jsstring :=
  match fuel with
  | O => k s
  | S fuel' =>
      orelse
        (m s (fun s' =>
                if length s' <? length s then star_loop m k fuel' s' else None))
        (k s)
  end.

Fixpoint rmatch (r : regex) (s : jsstring)
    (k : jsstring -> option jsstring) {struct r} : option jsstring :=
  match r with
  | REmpty => k s
  | RChar c => one (N.eqb c) s k
  | RNoneOf cs => one (fun x => negb (mem x cs)) s k
  | RDigit => one is_digit s k
  | RSeq r1 r2 => rmatch r1 s (fun s' => rmatch r2 s' k)
  | RAlt r1 r2 => orelse (rmatch r1 s k) (rmatch r2 s k)
  | RStar r1 => star_loop (rmatch r1) k (length s) s
  end.

(** The match of [r] at the start of [s], as the number of code units it
    spans. *)
Definition match_length (r : regex) (s : jsstring) : option nat :=
  match rmatch r s Some with
  | Some rest => Some (length s - length rest)
  | None => None
  end.

(** [s.replace(r, e)] for a global [r] and the empty string [e]: every
    match, found left to right
    and each search resuming where the previous match ended, is deleted.
    [skip] counts the code units of the current match still to drop. *)
Fixpoint delete_from (r : regex) (skip : nat) (s : jsstring) : jsstring :=
  match s with
  | [] => []
  | c :: t =>
      match skip with
      | S n => delete_from r n t
      | O =>
          match match_length r s with
          | Some (S n) => delete_from r n t
          | _ => c :: delete_from r 0 t
          end
      end
  end.

Definition replace_all_empty (r : regex) (s : jsstring) : jsstring :=
  delete_from r 0 s.

End JS.

Import JS.

(** ** Data model *)

(** [Feedback], from the API module: the three feedback values. *)
Inductive Feedback : Type := Neutral | Positive | Negative.

Definition Feedback_eqb (a b : Feedback) : bool :=
  match a, b with
  | Neutral, Neutral | Positive, Positive | Negative, Negative => true
  | _, _ => false
  end.

(** What the component does to the outside world: the calls of the
    caller's callbacks with their arguments, the clipboard write and the
    console message.  A callback call with an omitted optional argument
    carries [None]. *)
Inductive Effect : Type :=
| FeedbackProvided (feedback : Feedback) (message : option jsstring)
| CitationClicked (filePath : jsstring)
| FollowupQuestionClicked (question : jsstring)
| ThoughtProcessClicked
| SupportingContentClicked
| ClipboardWriteText (text : jsstring)
| ConsoleError (label : jsstring) (err : jsstring).

(** The properties of the component.  [answerHtml] and [citations] are
    the two fields of [parsedAnswer]; an optional callback is recorded by
    whether the caller supplied it, an optional flag by [None] when it was
    omitted.  The required callbacks are always there. *)
Record Props : Type := {
  answerHtml : jsstring;
  citations : list jsstring;
  thoughts_length : option nat;
  data_points : bool;
  followup_questions : option (list jsstring);
  isStreaming : bool;
  onFollowupQuestionClicked : bool;
  onFeedbackProvided : bool;
  showFollowupQuestions : option bool;
  showSpeechOutputBrowser : option bool;
  showSpeechOutputAzure : option bool
}.

(** The four [useState] cells. *)
Record State : Type := {
  copied : bool;
  feedbackState : Feedback;
  isFeedbackDialogOpen : bool;
  feedbackMessage : jsstring
}.

Definition initialState : State :=
  {| copied := false;
     feedbackState := Neutral;
     isFeedbackDialogOpen := false;
     feedbackMessage := lit "" |}.

(** The callback handed to [setTimeout]; the component has one. *)
Inductive TimerCallback : Type := ClearCopied.

Record Timer : Type := { due : N; callback : TimerCallback }.

(** The component instance in its environment: the state cells, the
    effects so far (oldest first), the clock in milliseconds, the timers
    not yet fired and the clipboard writes not yet settled. *)
Record World : Type := {
  ui : State;
  effects : list Effect;
  now : N;
  timers : list Timer;
  pendingWrites : nat
}.

Definition initialWorld : World :=
  {| ui := initialState; effects := []; now := 0%N; timers := [];
     pendingWrites := 0 |}.

(** ** Commands

    A handler is a sequence of state writes and calls.  It reads the state
    cells from the render it was created in, which is an argument of the
    handler, and writes through the setters below. *)
Definition Cmd (A : Type) : Type := World -> A * World.

Definition ret {A : Type} (a : A) : Cmd A := fun w => (a, w).

Definition bind {A B : Type} (c : Cmd A) (k : A -> Cmd B) : Cmd B :=
  fun w => let (a, w') := c w in k a w'.

Notation "c1 ;; c2" := (bind c1 (fun _ => c2))
  (at level 61, right associativity).

Definition exec (c : Cmd unit) (w : World) : World := snd (c w).

Definition modify_ui (f : State -> State) : Cmd unit :=
  fun w => (tt, {| ui := f (ui w); effects := effects w; now := now w;
                   timers := timers w; pendingWrites := pendingWrites w |}).

Definition setCopied (v : bool) : Cmd unit :=
  modify_ui (fun s => {| copied := v; feedbackState := feedbackState s;
                         isFeedbackDialogOpen := isFeedbackDialogOpen s;
                         feedbackMessage := feedbackMessage s |}).

Definition setFeedbackState (v : Feedback) : Cmd unit :=
  modify_ui (fun s => {| copied := copied s; feedbackState := v;
                         isFeedbackDialogOpen := isFeedbackDialogOpen s;
                         feedbackMessage := feedbackMessage s |}).

Definition setIsFeedbackDialogOpen (v : bool) : Cmd unit :=
  modify_ui (fun s => {| copied := copied s; feedbackState := feedbackState s;
                         isFeedbackDialogOpen := v;
                         feedbackMessage := feedbackMessage s |}).

Definition setFeedbackMessage (v : jsstring) : Cmd unit :=
  modify_ui (fun s => {| copied := copied s; feedbackState := feedbackState s;
                         isFeedbackDialogOpen := isFeedbackDialogOpen s;
                         feedbackMessage := v |}).

(** A call that leaves the component. *)
Definition emit (e : Effect) : Cmd unit :=
  fun w => (tt, {| ui := ui w; effects := effects w ++ [e]; now := now w;
                   timers := timers w; pendingWrites := pendingWrites w |}).

(** [setTimeout(cb, delay)]. *)
Definition setTimeout (cb : TimerCallback) (delay : N) : Cmd unit :=
  fun w => (tt, {| ui := ui w; effects := effects w; now := now w;
                   timers := timers w ++ [{| due := (now w + delay)%N;
                                             callback := cb |}];
                   pendingWrites := pendingWrites w |}).

(** [navigator.clipboard.writeText(text)]: the write is requested and its
    promise is pending until the environment settles it. *)
Definition clipboard_writeText (text : jsstring) : Cmd unit :=
  fun w => (tt, {| ui := ui w; effects := effects w ++ [ClipboardWriteText text];
                   now := now w; timers := timers w;
                   pendingWrites := S (pendingWrites w) |}).

Definition settle_write : Cmd unit :=
  fun w => (tt, {| ui := ui w; effects := effects w; now := now w;
                   timers := timers w;
                   pendingWrites := pred (pendingWrites w) |}).

(** The pattern of [handleCopy],
    [/<a [^>]*><sup>\d+<\/sup><\/a>|<[^>]+>/g], by its two alternatives. *)
Definition citation_pattern : regex :=
  RSeq (RLit (lit "<a "))
    (RSeq (RStar (RNoneOf (lit ">")))
       (RSeq (RLit (lit "><sup>"))
          (RSeq (RPlus RDigit) (RLit (lit "</sup></a>"))))).

Definition tag_pattern : regex :=
  RSeq (RLit (lit "<")) (RSeq (RPlus (RNoneOf (lit ">"))) (RLit (lit ">"))).

Definition citation_or_tag : regex := RAlt citation_pattern tag_pattern.

(** ** The component *)

Section Answer.

(** The collaborators of the component that live in other modules:
    [DOMPurify.sanitize] and [getCitationFilePath] of the API module. *)
Variable sanitize : jsstring -> jsstring.
Variable getCitationFilePath : jsstring -> jsstring.

Definition sanitizedAnswerHtml (p : Props) : jsstring :=
  sanitize (answerHtml p).

(** *** Handlers *)

Definition textToCopy (p : Props) : jsstring :=
  replace_all_empty citation_or_tag (sanitizedAnswerHtml p).

Definition handleCopy (p : Props) : Cmd unit :=
  clipboard_writeText (textToCopy p).

(** The two continuations of the promise of [handleCopy]. *)
Definition handleCopy_then : Cmd unit :=
  setCopied true ;;
  setTimeout ClearCopied 2000.

Definition handleCopy_catch (err : jsstring) : Cmd unit :=
  emit (ConsoleError (lit "Failed to copy text: ") err).

Definition run_timer (cb : TimerCallback) : Cmd unit :=
  match cb with
  | ClearCopied => setCopied false
  end.

(** [r] is the state of the render that created the handler. *)
Definition handleFeedback (p : Props) (r : State) (feedback : Feedback)
  : Cmd unit :=
  if negb (onFeedbackProvided p) then ret tt
  else if Feedback_eqb feedback Negative then
    setFeedbackState feedback ;;
    setIsFeedbackDialogOpen true
  else
    let newState :=
      if Feedback_eqb (feedbackState r) feedback then Neutral else feedback in
    setFeedbackState newState ;;
    emit (FeedbackProvided newState None).

Definition handleFeedbackSubmit (p : Props) (r : State) : Cmd unit :=
  (if onFeedbackProvided p
   then emit (FeedbackProvided Negative (Some (feedbackMessage r)))
   else ret tt) ;;
  setIsFeedbackDialogOpen false ;;
  setFeedbackMessage (lit "").

(** [onChange] of the text field: [newValue], or the empty string when
    it is undefined or empty. *)
Definition handleMessageChange (newValue : option jsstring) : Cmd unit :=
  setFeedbackMessage
    (match newValue with
     | Some v => if truthy v then v else lit ""
     | None => lit ""
     end).

(** The cancel button and [onDismiss] of the dialog. *)
Definition handleDialogClose : Cmd unit :=
  setIsFeedbackDialogOpen false.

(** *** The rendered view

    The parts of the element tree that the contract speaks of: which
    controls exist, which are disabled, what they show and what a click on
    them calls. *)
Record Anchor : Type := {
  key : nat;
  title : jsstring;
  text : jsstring;
  onClick : Effect
}.

Fixpoint mapi_from {A B : Type} (f : A -> nat -> B) (i : nat) (l : list A)
  : list B :=
  match l with
  | [] => []
  | x :: t => f x i :: mapi_from f (S i) t
  end.

(** [l.map((x, i) => f x i)]. *)
Definition mapi {A B : Type} (f : A -> nat -> B) (l : list A) : list B :=
  mapi_from f 0 l.

(** The element of a citation.  Its children are built before its key is
    read (the component is compiled with the automatic JSX runtime, which
    takes the key as the argument after the properties), so the [++i] of
    the label has run by then and the key is the number of the label. *)
Definition citationAnchor (x : jsstring) (i : nat) : Anchor :=
  let path := getCitationFilePath x in
  {| key := S i;
     title := x;
     text := of_nat (S i) ++ lit ". " ++ x;
     onClick := CitationClicked path |}.

Definition followupAnchor (x : jsstring) (i : nat) : Anchor :=
  {| key := i;
     title := x;
     text := x;
     onClick := FollowupQuestionClicked x |}.

Definition flag (b : option bool) : bool :=
  match b with Some true => true | _ => false end.

Record FeedbackButtons : Type := {
  likeColor : jsstring;
  dislikeColor : jsstring
}.

Record View : Type := {
  copyIconName : jsstring;
  thoughtProcessDisabled : bool;
  supportingContentDisabled : bool;
  speechOutputAzure : bool;
  speechOutputBrowser : bool;
  feedbackButtons : option FeedbackButtons;
  markdown : jsstring;
  citationList : option (list Anchor);
  followupList : option (list Anchor);
  dialogHidden : bool;
  textFieldValue : jsstring;
  submitDisabled : bool
}.

Definition render (p : Props) (s : State) : View :=
  {| copyIconName := if copied s then lit "CheckMark" else lit "Copy";
     thoughtProcessDisabled :=
       match thoughts_length p with
       | Some (S _) => false
       | _ => true
       end;
     supportingContentDisabled := negb (data_points p);
     speechOutputAzure := flag (showSpeechOutputAzure p);
     speechOutputBrowser := flag (showSpeechOutputBrowser p);
     feedbackButtons :=
       if onFeedbackProvided p then
         Some {| likeColor :=
                   if Feedback_eqb (feedbackState s) Positive
                   then lit "darkgreen" else lit "black";
                 dislikeColor :=
                   if Feedback_eqb (feedbackState s) Negative
                   then lit "darkred" else lit "black" |}
       else None;
     markdown := sanitizedAnswerHtml p;
     citationList :=
       if negb (length (citations p) =? 0)
       then Some (mapi citationAnchor (citations p))
       else None;
     followupList :=
       match followup_questions p with
       | Some qs =>
           if negb (length qs =? 0) && flag (showFollowupQuestions p)
              && onFollowupQuestionClicked p
           then Some (mapi followupAnchor qs)
           else None
       | None => None
       end;
     dialogHidden := negb (isFeedbackDialogOpen s);
     textFieldValue := feedbackMessage s;
     submitDisabled := negb (truthy (trim (feedbackMessage s))) |}.

(** *** Events

    What can happen to a mounted component: the user operates a control,
    a clipboard write settles, time passes. *)
Inductive Event : Type :=
| ClickCopy
| ClipboardFulfilled
| ClipboardRejected (err : jsstring)
| Elapse (ms : N)
| ClickThoughtProcess
| ClickSupportingContent
| ClickLike
| ClickDislike
| ClickCitation (i : nat)
| ClickFollowup (i : nat)
| ChangeMessage (newValue : option jsstring)
| ClickSubmit
| ClickCancel
| DismissDialog.

Definition anchorAt (l : option (list Anchor)) (i : nat) : option Anchor :=
  match l with
  | Some items => nth_error items i
  | None => None
  end.

Definition clickAnchor (a : option Anchor) : Cmd unit :=
  match a with
  | Some x => emit (onClick x)
  | None => ret tt
  end.

(** Timers whose time has come run in the order they were set. *)
Fixpoint fire (ts : list Timer) (t : N) : Cmd unit :=
  match ts with
  | [] => ret tt
  | x :: rest =>
      (if (due x <=? t)%N then run_timer (callback x) else ret tt) ;;
      fire rest t
  end.

Definition elapse (ms : N) : Cmd unit :=
  fun w =>
    let t := (now w + ms)%N in
    fire (timers w) t
      {| ui := ui w; effects := effects w; now := t;
         timers := filter (fun x => negb (due x <=? t)%N) (timers w);
         pendingWrites := pendingWrites w |}.

Definition dispatch (p : Props) (r : State) (e : Event) : Cmd unit :=
  match e with
  | ClickCopy => handleCopy p
  | ClipboardFulfilled => settle_write ;; handleCopy_then
  | ClipboardRejected err => settle_write ;; handleCopy_catch err
  | Elapse ms => elapse ms
  | ClickThoughtProcess => emit ThoughtProcessClicked
  | ClickSupportingContent => emit SupportingContentClicked
  | ClickLike => handleFeedback p r Positive
  | ClickDislike => handleFeedback p r Negative
  | ClickCitation i => clickAnchor (anchorAt (citationList (render p r)) i)
  | ClickFollowup i => clickAnchor (anchorAt (followupList (render p r)) i)
  | ChangeMessage v => handleMessageChange v
  | ClickSubmit => handleFeedbackSubmit p r
  | ClickCancel => handleDialogClose
  | DismissDialog => handleDialogClose
  end.

(** One event: its handler, created by the current render, runs. *)
Definition step (p : Props) (w : World) (e : Event) : World :=
  exec (dispatch p (ui w) e) w.

Definition run (p : Props) (w : World) (es : list Event) : World :=
  fold_left (step p) es w.

(** An event can happen when its control is not disabled and, for the
    controls that the component itself leaves out of the view, when it is
    in the view; a write settles only while one is pending.  The controls
    of the dialog are the children of the dialog widget, which is handed
    [hidden] and decides itself how long they stay operable: it keeps them
    so while it closes.  Their handlers do not look at
    [isFeedbackDialogOpen], so these events are possible whether or not
    the dialog is open; only the [disabled] of the submit button stands
    in the way of a submit. *)
Definition is_some {A : Type} (o : option A) : bool :=
  match o with Some _ => true | None => false end.

Definition enabled (p : Props) (w : World) (e : Event) : bool :=
  let v := render p (ui w) in
  match e with
  | ClickCopy => true
  | ClipboardFulfilled | ClipboardRejected _ => negb (pendingWrites w =? 0)
  | Elapse _ => true
  | ClickThoughtProcess => negb (thoughtProcessDisabled v)
  | ClickSupportingContent => negb (supportingContentDisabled v)
  | ClickLike | ClickDislike => is_some (feedbackButtons v)
  | ClickCitation i => is_some (anchorAt (citationList v) i)
  | ClickFollowup i => is_some (anchorAt (followupList v) i)
  | ChangeMessage _ | ClickCancel | DismissDialog => true
  | ClickSubmit => negb (submitDisabled v)
  end.

(** The dialog is modal: while it is open, the controls behind it cannot
    be operated.  [modal_enabled] is [enabled] with that restriction. *)
Definition behind_dialog (e : Event) : bool :=
  match e with
  | ClickCopy | ClickThoughtProcess | ClickSupportingContent
  | ClickLike | ClickDislike | ClickCitation _ | ClickFollowup _ => true
  | _ => false
  end.

Definition modal_enabled (p : Props) (w : World) (e : Event) : bool :=
  enabled p w e && negb (isFeedbackDialogOpen (ui w) && behind_dialog e).

(** The histories of a mounted component: the events so far, oldest
    first, each one possible (under [ok]) when it happened, and the world
    they lead to. *)
Inductive trace (ok : Props -> World -> Event -> bool) (p : Props)
  : list Event -> World -> Prop :=
| trace_nil : trace ok p [] initialWorld
| trace_snoc es w e :
    trace ok p es w -> ok p w e = true ->
    trace ok p (es ++ [e]) (step p w e).

(** The same on a list of events, from a given world. *)
Fixpoint admissible (ok : Props -> World -> Event -> bool) (p : Props)
    (w : World) (es : list Event) : bool :=
  match es with
  | [] => true
  | e :: rest => ok p w e && admissible ok p (step p w e) rest
  end.

(** The events that close the dialog. *)
Definition closes_dialog (e : Event) : bool :=
  match e with
  | ClickSubmit | ClickCancel | DismissDialog => true
  | _ => false
  end.

End Answer.

(** A message is blank when it is empty or all white space. *)
Definition blank (m : jsstring) : bool := forallb is_white_space m.

(** The links of an optional block; none when the block is absent. *)
Definition links (l : option (list Anchor)) : list Anchor :=
  match l with Some items => items | None => [] end.

(** [t] occurs in [s] from some position to the end. *)
Definition suffix_of (t s : jsstring) : Prop := exists pre, s = pre ++ t.

(** What one event can add to the effects: a feedback call with a message
    comes from a submit and carries the message field of that moment; a
    console message comes from a rejected clipboard write. *)
Definition accounted (w : World) (e : Event) (x : Effect) : Prop :=
  match x with
  | FeedbackProvided f (Some m) =>
      e = ClickSubmit /\ f = Negative /\ m = feedbackMessage (ui w)
  | ConsoleError label err =>
      e = ClipboardRejected err /\ label = lit "Failed to copy text: "
  | _ => True
  end.

(** The opening of a tag: [<], a code unit other than [>], and a [>]
    somewhere after it. *)
Definition tag_at (s : jsstring) : bool :=
  match s with
  | a :: c :: t => (a =? 60)%N && negb (c =? 62)%N && existsb (N.eqb 62) t
  | _ => false
  end.

(** The time that a sequence of delays adds up to. *)
Definition total (ds : list N) : N := fold_right N.add 0%N ds.

(** An answer with two citations and one follow-up question, shown with
    every optional callback supplied; the sanitizer and the path function
    are stand-ins for the examples below. *)
Definition demoProps : Props :=
  {| answerHtml := lit "<a href=x><sup>1</sup></a>Hello <b>world</b>";
     citations := [lit "a.pdf"; lit "b.pdf"];
     thoughts_length := Some 1;
     data_points := true;
     followup_questions := Some [lit "What next?"];
     isStreaming := false;
     onFollowupQuestionClicked := true;
     onFeedbackProvided := true;
     showFollowupQuestions := Some true;
     showSpeechOutputBrowser := None;
     showSpeechOutputAzure := None |}.

Definition demoSanitize (html : jsstring) : jsstring := html.

Definition demoPath (citation : jsstring) : jsstring :=
  lit "/content/" ++ citation.

Definition demoStep : World -> Event -> World :=
  step demoSanitize demoPath demoProps.

Definition demoRun : list Event -> World :=
  run demoSanitize demoPath demoProps initialWorld.

Definition demoRender : State -> View :=
  render demoSanitize demoPath demoProps.

(** ** Notions for the further properties *)

(** [a] is [b] with some code units left out, the rest in order. *)
Inductive subseq : jsstring -> jsstring -> Prop :=
| subseq_nil : subseq [] []
| subseq_keep c a b : subseq a b -> subseq (c :: a) (c :: b)
| subseq_drop c a b : subseq a b -> subseq a (c :: b).

(** No code unit of [s] is [c]. *)
Definition free_of (c : code_unit) (s : jsstring) : bool :=
  forallb (fun x => negb (x =? c)%N) s.

(** What justifies an effect: the event that caused it, in the world it
    happened in, and what the properties of the component had to be. *)
Definition justified (sanitize getCitationFilePath : jsstring -> jsstring)
    (p : Props) (w : World) (e : Event) (x : Effect) : Prop :=
  match x with
  | FeedbackProvided f None =>
      onFeedbackProvided p = true /\ e = ClickLike /\
      f = (if Feedback_eqb (feedbackState (ui w)) Positive
           then Neutral else Positive)
  | FeedbackProvided f (Some m) =>
      onFeedbackProvided p = true /\ e = ClickSubmit /\
      f = Negative /\ m = feedbackMessage (ui w)
  | CitationClicked path =>
      exists i c,
        e = ClickCitation i /\ nth_error (citations p) i = Some c /\
        path = getCitationFilePath c
  | FollowupQuestionClicked q =>
      exists i qs,
        e = ClickFollowup i /\ followup_questions p = Some qs /\
        nth_error qs i = Some q /\
        showFollowupQuestions p = Some true /\
        onFollowupQuestionClicked p = true
  | ThoughtProcessClicked => e = ClickThoughtProcess
  | SupportingContentClicked => e = ClickSupportingContent
  | ClipboardWriteText t => e = ClickCopy /\ t = textToCopy sanitize p
  | ConsoleError label err =>
      e = ClipboardRejected err /\ label = lit "Failed to copy text: "
  end.

(** The feedback state after [k] selections of Positive in a row, from
    the state [s0]. *)
Definition like_state (s0 : Feedback) (k : nat) : Feedback :=
  match k with
  | O => s0
  | S _ =>
      if Bool.eqb (Nat.odd k) (Feedback_eqb s0 Positive)
      then Neutral else Positive
  end.

(** Every timer still set is due in the future, and a copied flag that is
    up has a timer due within 2000 ms to take it down. *)
Definition timely (w : World) : Prop :=
  (forall T, In T (timers w) -> (now w < due T)%N) /\
  (copied (ui w) = true ->
   exists T, In T (timers w) /\ (due T <= now w + 2000)%N).

(** The example answer without a feedback callback, and an answer of
    plain text. *)
Definition demoNoCallback : Props :=
  {| answerHtml := answerHtml demoProps;
     citations := citations demoProps;
     thoughts_length := thoughts_length demoProps;
     data_points := data_points demoProps;
     followup_questions := followup_questions demoProps;
     isStreaming := isStreaming demoProps;
     onFollowupQuestionClicked := onFollowupQuestionClicked demoProps;
     onFeedbackProvided := false;
     showFollowupQuestions := showFollowupQuestions demoProps;
     showSpeechOutputBrowser := showSpeechOutputBrowser demoProps;
     showSpeechOutputAzure := showSpeechOutputAzure demoProps |}.

Definition demoPlain : Props :=
  {| answerHtml := lit "if a < b then stop";
     citations := [];
     thoughts_length := None;
     data_points := false;
     followup_questions := None;
     isStreaming := false;
     onFollowupQuestionClicked := false;
     onFeedbackProvided := false;
     showFollowupQuestions := None;
     showSpeechOutputBrowser := None;
     showSpeechOutputAzure := None |}.

(** * Properties *)

(** ** Strings *)

(** *** Matching *)

Lemma suffix_of_refl (s : jsstring) : suffix_of s s.
Proof. exists []. reflexivity. Qed.

Lemma suffix_of_trans (a b c : jsstring) :
  suffix_of a b -> suffix_of b c -> suffix_of a c.
Proof.
  intros [p1 ->] [p2 ->]. exists (p2 ++ p1). apply app_assoc.
Qed.

Lemma suffix_of_inv (t : jsstring) (c : code_unit) (s : jsstring) :
  suffix_of t (c :: s) -> t = c :: s \/ suffix_of t s.
Proof.
  intros [[|x pre] H]; simpl in H.
  - left. symmetry. exact H.
  - right. injection H as _ ->. exists pre. reflexivity.
Qed.

Lemma one_inv (f : code_unit -> bool) (s : jsstring)
    (k : jsstring -> option jsstring) (x : jsstring) :
  one f s k = Some x ->
  exists c t, s = c :: t /\ f c = true /\ k t = Some x.
Proof.
  destruct s as [|c t]; simpl; [discriminate|].
  destruct (f c) eqn:Hc; [|discriminate]. eauto.
Qed.

(** A successful match has handed some suffix of the input to the
    continuation, and its result is what the continuation made of it. *)
Lemma star_loop_suffix
    (m : jsstring -> (jsstring -> option jsstring) -> option jsstring) :
  (forall s k x, m s k = Some x ->
                 exists s', suffix_of s' s /\ k s' = Some x) ->
  forall k fuel s x,
    star_loop m k fuel s = Some x ->
    exists s', suffix_of s' s /\ k s' = Some x.
Proof.
  intros Hm k fuel. induction fuel as [|fuel IH]; intros s x; simpl.
  - intros H. exists s. split; [apply suffix_of_refl | exact H].
  - destruct (m s _) as [y|] eqn:Hy; simpl.
    + intros H. injection H as ->.
      apply Hm in Hy as (s1 & Hs1 & Hk).
      destruct (length s1 <? length s); [|discriminate].
      apply IH in Hk as (s2 & Hs2 & Hk).
      exists s2. split; [eapply suffix_of_trans; eassumption | exact Hk].
    + intros H. exists s. split; [apply suffix_of_refl | exact H].
Qed.

Lemma rmatch_suffix (r : regex) :
  forall s k x,
    rmatch r s k = Some x ->
    exists s', suffix_of s' s /\ k s' = Some x.
Proof.
  induction r as [|c|cs| |r1 IH1 r2 IH2|r1 IH1 r2 IH2|r1 IH1];
    intros s k x; simpl.
  - intros H. exists s. split; [apply suffix_of_refl | exact H].
  - intros H. apply one_inv in H as (a & t & -> & _ & H).
    exists t. split; [exists [a]; reflexivity | exact H].
  - intros H. apply one_inv in H as (a & t & -> & _ & H).
    exists t. split; [exists [a]; reflexivity | exact H].
  - intros H. apply one_inv in H as (a & t & -> & _ & H).
    exists t. split; [exists [a]; reflexivity | exact H].
  - intros H. apply IH1 in H as (s1 & Hs1 & H).
    apply IH2 in H as (s2 & Hs2 & H).
    exists s2. split; [eapply suffix_of_trans; eassumption | exact H].
  - destruct (rmatch r1 s k) as [y|] eqn:Hy; simpl.
    + intros H. injection H as ->. apply IH1. exact Hy.
    + apply IH2.
  - apply star_loop_suffix. exact IH1.
Qed.

(** The result of a match depends on the continuation only through
    what the continuation returns. *)
Lemma star_loop_ext
    (m : jsstring -> (jsstring -> option jsstring) -> option jsstring) :
  (forall s k1 k2, (forall x, k1 x = k2 x) -> m s k1 = m s k2) ->
  forall k1 k2, (forall x, k1 x = k2 x) ->
  forall fuel s, star_loop m k1 fuel s = star_loop m k2 fuel s.
Proof.
  intros Hm k1 k2 Hk fuel. induction fuel as [|fuel IH]; intros s; simpl.
  - apply Hk.
  - rewrite Hk. f_equal. apply Hm. intros x.
    destruct (length x <? length s); [apply IH | reflexivity].
Qed.

Lemma rmatch_ext (r : regex) :
  forall s k1 k2, (forall x, k1 x = k2 x) -> rmatch r s k1 = rmatch r s k2.
Proof.
  induction r as [|c|cs| |r1 IH1 r2 IH2|r1 IH1 r2 IH2|r1 IH1];
    intros s k1 k2 Hk; simpl;
    try (destruct s as [|a t]; simpl; [reflexivity|];
         match goal with |- context [if ?b then _ else _] => destruct b end;
         [apply Hk | reflexivity]).
  - apply Hk.
  - apply IH1. intros x. apply IH2. exact Hk.
  - rewrite (IH1 s k1 k2 Hk), (IH2 s k1 k2 Hk). reflexivity.
  - apply star_loop_ext; assumption.
Qed.

Lemma rmatch_none (r : regex) (s : jsstring) :
  rmatch r s (fun _ => None) = None.
Proof.
  destruct (rmatch r s (fun _ => None)) as [x|] eqn:H; [|reflexivity].
  apply rmatch_suffix in H as (s' & _ & H). discriminate.
Qed.

(** The fuel of the greedy loop is enough: every iteration shortens the
    input, so any fuel from the length of the input on gives the same
    result. *)
Lemma star_fuel_enough (r : regex) (k : jsstring -> option jsstring)
    (n : nat) :
  forall s f1 f2,
    length s <= n -> length s <= f1 -> length s <= f2 ->
    star_loop (rmatch r) k f1 s = star_loop (rmatch r) k f2 s.
Proof.
  assert (Hnil : forall f, star_loop (rmatch r) k f [] = k []).
  { intros [|f]; [reflexivity|]. cbn [star_loop].
    rewrite (rmatch_ext r [] _ (fun _ => None)) by (intros x; reflexivity).
    rewrite rmatch_none. reflexivity. }
  induction n as [|n IH]; intros s f1 f2 Hn H1 H2.
  - destruct s; [|simpl in Hn; lia]. rewrite !Hnil. reflexivity.
  - destruct s as [|c t]; [rewrite !Hnil; reflexivity|].
    destruct f1 as [|f1]; [simpl in H1; lia|].
    destruct f2 as [|f2]; [simpl in H2; lia|].
    cbn [star_loop]. f_equal. apply rmatch_ext. intros x.
    destruct (Nat.ltb_spec (length x) (length (c :: t))) as [Hx|Hx];
      [|reflexivity].
    simpl in Hn, H1, H2, Hx. apply IH; lia.
Qed.

Lemma rmatch_star_fuel (r : regex) (s : jsstring)
    (k : jsstring -> option jsstring) (extra : nat) :
  rmatch (RStar r) s k = star_loop (rmatch r) k (length s + extra) s.
Proof.
  cbn [rmatch]. apply (star_fuel_enough r k (length s)); lia.
Qed.

(** *** The pattern of the copy action *)

Lemma split_at_gt (t : jsstring) :
  existsb (N.eqb 62) t = true ->
  exists run rest,
    t = run ++ 62%N :: rest /\
    forallb (fun c => negb (c =? 62)%N) run = true.
Proof.
  induction t as [|c t IH]; cbn [existsb]; [discriminate|].
  destruct (N.eqb_spec 62 c) as [<-|Hc]; cbn [orb].
  - intros _. exists [], t. split; reflexivity.
  - intros H. destruct (IH H) as (run & rest & -> & Hrun).
    exists (c :: run), rest. split; [reflexivity|]. cbn [forallb].
    rewrite Hrun. destruct (N.eqb_spec c 62); [congruence | reflexivity].
Qed.

(** The greedy loop over [[^>]] runs up to the first [>] and, when the
    continuation accepts there, that is the match. *)
Lemma star_not_gt_run (k : jsstring -> option jsstring)
    (run rest x : jsstring) :
  forallb (fun c => negb (c =? 62)%N) run = true ->
  k (62%N :: rest) = Some x ->
  forall fuel, length run <= fuel ->
    star_loop (rmatch (RNoneOf (lit ">"))) k fuel (run ++ 62%N :: rest)
    = Some x.
Proof.
  intros Hrun Hk. induction run as [|c run IH]; intros fuel Hfuel.
  - destruct fuel; simpl; exact Hk.
  - destruct fuel as [|fuel]; [simpl in Hfuel; lia|].
    simpl in Hrun. apply andb_prop in Hrun as [Hc Hrun].
    cbn [star_loop app rmatch one]. unfold mem.
    cbn [lit map list_ascii_of_string existsb].
    change (N_of_ascii ">") with 62%N. rewrite orb_false_r, Hc.
    cbn [length].
    destruct (Nat.ltb_spec (length (run ++ 62%N :: rest))
                           (S (length (run ++ 62%N :: rest)))); [|lia].
    rewrite IH; [reflexivity | exact Hrun | simpl in Hfuel; lia].
Qed.

Lemma tag_matches (s : jsstring) :
  tag_at s = true -> exists rest, rmatch tag_pattern s Some = Some rest.
Proof.
  destruct s as [|a [|c t]]; try discriminate.
  unfold tag_at. intros H.
  apply andb_prop in H as [H Ht]. apply andb_prop in H as [Ha Hc].
  apply N.eqb_eq in Ha as ->.
  destruct (split_at_gt t Ht) as (run & rest & -> & Hrun).
  exists rest. unfold tag_pattern, RPlus.
  cbn [rmatch RLit lit map list_ascii_of_string one].
  change (N_of_ascii "<") with 60%N. change (N_of_ascii ">") with 62%N.
  cbn [N.eqb Pos.eqb]. unfold mem. cbn [existsb].
  rewrite orb_false_r, Hc.
  apply star_not_gt_run;
    [exact Hrun | | rewrite length_app; apply Nat.le_add_r].
  cbn [one N.eqb Pos.eqb]. reflexivity.
Qed.

Lemma lit_inv (l s : jsstring) (k : jsstring -> option jsstring)
    (x : jsstring) :
  rmatch (RLit l) s k = Some x -> exists t, s = l ++ t /\ k t = Some x.
Proof.
  revert s. induction l as [|c l IH]; intros s; cbn [RLit rmatch].
  - intros H. exists s. split; [reflexivity | exact H].
  - intros H. apply one_inv in H as (a & t & -> & Ha & H).
    apply N.eqb_eq in Ha as ->.
    apply IH in H as (u & -> & H). exists u. split; [reflexivity | exact H].
Qed.

Lemma existsb_gt_middle (pre post : jsstring) :
  existsb (N.eqb 62) (pre ++ 62%N :: post) = true.
Proof.
  rewrite existsb_app. cbn [existsb]. rewrite N.eqb_refl.
  rewrite orb_true_r. reflexivity.
Qed.

(** What either alternative has matched opens with a tag and is not
    empty. *)
Lemma citation_match_inv (s rest : jsstring) :
  rmatch citation_pattern s Some = Some rest ->
  tag_at s = true /\ length rest < length s.
Proof.
  unfold citation_pattern. cbn [rmatch]. intros H.
  apply lit_inv in H as (t & -> & H).
  apply (rmatch_suffix (RStar (RNoneOf (lit ">")))) in H as (s1 & [pre ->] & H).
  apply lit_inv in H as (u & -> & H).
  change (rmatch (RSeq (RPlus RDigit) (RLit (lit "</sup></a>"))) u Some
          = Some rest) in H.
  apply rmatch_suffix in H as (s2 & [pre2 ->] & H). injection H as ->.
  split.
  - change (lit "<a " ++ pre ++ lit "><sup>" ++ pre2 ++ rest)
      with (60%N :: 97%N :: (32%N :: pre) ++ 62%N :: lit "<sup>" ++ pre2 ++ rest).
    cbn [tag_at]. rewrite existsb_gt_middle. reflexivity.
  - repeat rewrite length_app. cbn [length lit map list_ascii_of_string].
    unfold jsstring, code_unit. lia.
Qed.

Lemma tag_match_inv (s rest : jsstring) :
  rmatch tag_pattern s Some = Some rest ->
  tag_at s = true /\ length rest < length s.
Proof.
  unfold tag_pattern, RPlus. cbn [rmatch]. intros H.
  apply lit_inv in H as (t & -> & H).
  apply one_inv in H as (c & t' & -> & Hc & H).
  apply (rmatch_suffix (RStar (RNoneOf (lit ">")))) in H as (s1 & [pre ->] & H).
  apply lit_inv in H as (u & -> & H). injection H as ->.
  split.
  - change (lit "<" ++ c :: pre ++ lit ">" ++ rest)
      with (60%N :: c :: pre ++ 62%N :: rest).
    cbn [tag_at]. rewrite existsb_gt_middle.
    unfold mem in Hc. cbn [lit map list_ascii_of_string existsb] in Hc.
    change (N_of_ascii ">") with 62%N in Hc. rewrite orb_false_r in Hc.
    rewrite Hc. reflexivity.
  - cbn [app length lit map list_ascii_of_string].
    repeat rewrite length_app. cbn [length].
    unfold jsstring, code_unit. lia.
Qed.

Lemma match_inv (s rest : jsstring) :
  rmatch citation_or_tag s Some = Some rest ->
  tag_at s = true /\ length rest < length s.
Proof.
  unfold citation_or_tag. cbn [rmatch].
  destruct (rmatch citation_pattern s Some) as [y|] eqn:Hy; cbn [orelse].
  - intros H. injection H as ->. apply citation_match_inv. exact Hy.
  - apply tag_match_inv.
Qed.

(** The pattern matches at the start of [s] exactly when a tag opens
    there, and a match is never empty. *)
Lemma match_length_none (s : jsstring) :
  match_length citation_or_tag s = None <-> tag_at s = false.
Proof.
  unfold match_length. split.
  - destruct (rmatch citation_or_tag s Some) as [rest|] eqn:H; [discriminate|].
    intros _. destruct (tag_at s) eqn:Ht; [|reflexivity].
    apply tag_matches in Ht as [rest Hrest].
    unfold citation_or_tag in H. cbn [rmatch] in H. rewrite Hrest in H.
    destruct (rmatch citation_pattern s Some); discriminate.
  - intros Ht.
    destruct (rmatch citation_or_tag s Some) as [rest|] eqn:H; [|reflexivity].
    apply match_inv in H as [H _]. congruence.
Qed.

Lemma match_length_some (s : jsstring) (n : nat) :
  match_length citation_or_tag s = Some n ->
  tag_at s = true /\ exists n', n = S n' /\ n <= length s.
Proof.
  unfold match_length.
  destruct (rmatch citation_or_tag s Some) as [rest|] eqn:H; [|discriminate].
  intros Hn. injection Hn as <-. apply match_inv in H as [Ht Hlen].
  split; [exact Ht|].
  exists (length s - length rest - 1). unfold jsstring, code_unit in *. lia.
Qed.

(** *** Deleting the matches *)

Lemma delete_from_skip (r : regex) (n : nat) (s : jsstring) :
  delete_from r n s = delete_from r 0 (skipn n s).
Proof.
  revert n. induction s as [|c t IH]; intros [|n]; try reflexivity.
  cbn [delete_from skipn]. apply IH.
Qed.

Lemma delete_from_incl (r : regex) (x : code_unit) (s : jsstring) :
  forall n, In x (delete_from r n s) -> In x s.
Proof.
  induction s as [|c t IH]; intros n; cbn [delete_from]; [trivial|].
  destruct n as [|n].
  - destruct (match_length r (c :: t)) as [[|m]|];
      try (intros [->|H]; [left; reflexivity | right; eapply IH; exact H]).
    intros H. right. eapply IH. exact H.
  - intros H. right. eapply IH. exact H.
Qed.

(** A code unit that stays does not come to open a tag by what is
    deleted after it. *)
Lemma kept_opens_no_tag (c : code_unit) (u : jsstring) :
  tag_at (c :: u) = false ->
  tag_at (c :: delete_from citation_or_tag 0 u) = false.
Proof.
  intros H. destruct (N.eqb_spec c 60) as [->|Hc].
  2:{ apply N.eqb_neq in Hc. unfold tag_at.
      destruct (delete_from _ 0 u); [reflexivity|]. rewrite Hc. reflexivity. }
  destruct u as [|d u]; [reflexivity|].
  destruct (N.eqb_spec d 62) as [->|Hd].
  - assert (Hm : match_length citation_or_tag (62%N :: u) = None).
    { apply match_length_none. destruct u; reflexivity. }
    cbn [delete_from]. unfold jsstring, code_unit in *. rewrite Hm. reflexivity.
  - apply N.eqb_neq in Hd. cbn [tag_at] in H. rewrite Hd in H.
    cbn [N.eqb Pos.eqb negb andb] in H.
    destruct (delete_from citation_or_tag 0 (d :: u)) as [|e v] eqn:Hdel;
      [reflexivity|].
    cbn [tag_at].
    destruct (existsb (N.eqb 62) v) eqn:Hv; [|apply andb_false_r].
    apply existsb_exists in Hv as (x & Hx & Hx62). apply N.eqb_eq in Hx62 as <-.
    assert (Hin : In 62%N (d :: u)).
    { apply (delete_from_incl citation_or_tag 62%N (d :: u) 0).
      rewrite Hdel. right. exact Hx. }
    destruct Hin as [->|Hin]; [discriminate|].
    assert (existsb (N.eqb 62) u = true).
    { apply existsb_exists. exists 62%N. split; [exact Hin | apply N.eqb_refl]. }
    congruence.
Qed.

Lemma delete_clean (n : nat) :
  forall s, length s <= n ->
  forall t, suffix_of t (delete_from citation_or_tag 0 s) -> tag_at t = false.
Proof.
  induction n as [|n IH]; intros s Hlen t Ht.
  - destruct s; [|simpl in Hlen; lia].
    destruct Ht as [pre Ht]. simpl in Ht.
    symmetry in Ht. apply app_eq_nil in Ht as [_ ->]. reflexivity.
  - destruct s as [|c u].
    { destruct Ht as [pre Ht]. simpl in Ht.
      symmetry in Ht. apply app_eq_nil in Ht as [_ ->]. reflexivity. }
    simpl in Hlen. cbn [delete_from] in Ht.
    destruct (match_length citation_or_tag (c :: u)) as [[|m]|] eqn:Hm.
    + apply match_length_some in Hm as (_ & m' & Hm' & _). discriminate.
    + rewrite delete_from_skip in Ht. apply (IH (skipn m u)); [|exact Ht].
      rewrite length_skipn. lia.
    + apply match_length_none in Hm.
      apply suffix_of_inv in Ht as [->|Ht].
      * apply kept_opens_no_tag. exact Hm.
      * apply (IH u); [lia | exact Ht].
Qed.

(** Nothing that the pattern matches is left in the result of the
    replacement. *)
Lemma replace_leaves_no_match (s t : jsstring) :
  suffix_of t (replace_all_empty citation_or_tag s) ->
  match_length citation_or_tag t = None.
Proof.
  intros H. apply match_length_none.
  apply (delete_clean (length s) s (le_n _) t H).
Qed.

Example strip_example :
  replace_all_empty citation_or_tag
    (lit "<a href=x><sup>1</sup></a>Hello <b>world</b>") = lit "Hello world".
Proof. vm_compute. reflexivity. Qed.

Example strip_example2 :
  replace_all_empty citation_or_tag
    (lit "a<b x<>c> d <a href><sup>12</sup></a>[1] <> <") = lit "ac> d [1] <> <".
Proof. vm_compute. reflexivity. Qed.

(** *** [trim] *)

Lemma trim_start_nil (s : jsstring) : trim_start s = [] <-> blank s = true.
Proof.
  induction s as [|c t IH]; simpl.
  - split; reflexivity.
  - destruct (is_white_space c); simpl.
    + exact IH.
    + split; discriminate.
Qed.

Lemma trim_start_head (s : jsstring) (c : code_unit) (t : jsstring) :
  trim_start s = c :: t -> is_white_space c = false.
Proof.
  induction s as [|x u IH]; simpl; [discriminate|].
  destruct (is_white_space x) eqn:Hx; [exact IH|].
  intros H. injection H as -> _. exact Hx.
Qed.

Lemma blank_rev (s : jsstring) : blank (rev s) = blank s.
Proof.
  unfold blank. induction s as [|c t IH]; simpl; [reflexivity|].
  rewrite forallb_app, IH. simpl. rewrite andb_true_r. apply andb_comm.
Qed.

(** [trim] leaves nothing exactly of the blank strings. *)
Lemma trim_nil (s : jsstring) : trim s = [] <-> blank s = true.
Proof.
  unfold trim, trim_end. split.
  - intros H. apply (f_equal (@rev _)) in H. rewrite rev_involutive in H.
    simpl in H. apply trim_start_nil in H. rewrite blank_rev in H.
    destruct (trim_start s) as [|c t] eqn:Hs.
    + apply trim_start_nil. exact Hs.
    + apply trim_start_head in Hs. simpl in H. rewrite Hs in H. discriminate.
  - intros H. apply trim_start_nil in H. rewrite H. reflexivity.
Qed.

Lemma truthy_trim (s : jsstring) : truthy (trim s) = negb (blank s).
Proof.
  destruct (blank s) eqn:Hb.
  - apply trim_nil in Hb. rewrite Hb. reflexivity.
  - destruct (trim s) eqn:Ht; [|reflexivity].
    apply trim_nil in Ht. congruence.
Qed.

Example of_nat_example : of_nat 12 = lit "12" /\ of_nat (9 + 1) = lit "10".
Proof. split; reflexivity. Qed.

Example trim_example :
  trim (lit "  too slow ") = lit "too slow" /\ trim (lit "   ") = lit "".
Proof. split; reflexivity. Qed.

(** ** Lists *)

Lemma mapi_from_length {A B : Type} (f : A -> nat -> B) (l : list A) (k : nat) :
  length (mapi_from f k l) = length l.
Proof.
  revert k. induction l as [|x t IH]; intros k; simpl; [|rewrite IH]; reflexivity.
Qed.

Lemma mapi_from_nth {A B : Type} (f : A -> nat -> B) (l : list A) (k i : nat) :
  nth_error (mapi_from f k l) i =
  option_map (fun x => f x (k + i)) (nth_error l i).
Proof.
  revert k i. induction l as [|x t IH]; intros k i; simpl.
  - destruct i; reflexivity.
  - destruct i as [|i]; simpl.
    + rewrite Nat.add_0_r. reflexivity.
    + rewrite IH. rewrite Nat.add_succ_r. reflexivity.
Qed.

Lemma mapi_nth {A B : Type} (f : A -> nat -> B) (l : list A) (i : nat) :
  nth_error (mapi f l) i = option_map (fun x => f x i) (nth_error l i).
Proof. unfold mapi. apply mapi_from_nth. Qed.

Lemma mapi_length {A B : Type} (f : A -> nat -> B) (l : list A) :
  length (mapi f l) = length l.
Proof. apply mapi_from_length. Qed.

(** ** Citations and follow-up questions *)

Section Lists.

Variable sanitize : jsstring -> jsstring.
Variable getCitationFilePath : jsstring -> jsstring.

Local Abbreviation step := (step sanitize getCitationFilePath).
Local Abbreviation render := (render sanitize getCitationFilePath).

Lemma citationList_links (p : Props) (s : State) :
  links (citationList (render p s)) =
  mapi (citationAnchor getCitationFilePath) (citations p).
Proof.
  unfold render; simpl. destruct (citations p); reflexivity.
Qed.

(** A click on a link calls what the link carries. *)
Lemma step_click_citation (p : Props) (w : World) (i : nat) (a : Anchor) :
  nth_error (links (citationList (render p (ui w)))) i = Some a ->
  effects (step p w (ClickCitation i)) = effects w ++ [onClick a].
Proof.
  unfold step, exec, dispatch, anchorAt.
  destruct (citationList (render p (ui w))) as [items|]; simpl.
  - intros ->. reflexivity.
  - destruct i; discriminate.
Qed.

(** C7: an answer whose parsed citation list has N entries is rendered
    with exactly N citation links (none at all when N is 0); the link at
    position i (from 0) shows the number i+1 and the i-th citation, and a
    click on it calls the citation handler with the path that
    [getCitationFilePath] gives for the i-th citation. *)
Theorem C7_citation_links (p : Props) (w : World) :
  let shown := links (citationList (render p (ui w))) in
  length shown = length (citations p) /\
  (citationList (render p (ui w)) = None <-> citations p = []) /\
  forall i x,
    nth_error (citations p) i = Some x ->
    nth_error shown i =
      Some {| key := i + 1; title := x;
              text := of_nat (i + 1) ++ lit ". " ++ x;
              onClick := CitationClicked (getCitationFilePath x) |} /\
    effects (step p w (ClickCitation i)) =
      effects w ++ [CitationClicked (getCitationFilePath x)].
Proof.
  intros shown. split; [|split].
  - subst shown. rewrite citationList_links. apply mapi_length.
  - unfold render; simpl. destruct (citations p); simpl; split;
      intros; try reflexivity; discriminate.
  - intros i x Hx.
    assert (Hi : nth_error shown i =
                 Some (citationAnchor getCitationFilePath x i)).
    { subst shown. rewrite citationList_links, mapi_nth, Hx. reflexivity. }
    split.
    + rewrite Hi. unfold citationAnchor. rewrite Nat.add_1_r. reflexivity.
    + rewrite (step_click_citation p w i _ Hi). reflexivity.
Qed.

(** C8: the follow-up block is rendered exactly when the list of
    follow-up questions is there and not empty, the show flag is true and
    a follow-up handler was supplied; it then has one entry per question,
    showing the question, and a click on an entry calls the handler with
    the text of its question. *)
Theorem C8_followup_block (p : Props) (w : World) :
  (followupList (render p (ui w)) <> None <->
   (exists q qs, followup_questions p = Some (q :: qs)) /\
   showFollowupQuestions p = Some true /\
   onFollowupQuestionClicked p = true) /\
  (forall items,
     followupList (render p (ui w)) = Some items ->
     exists qs,
       followup_questions p = Some qs /\
       length items = length qs /\
       forall i x,
         nth_error qs i = Some x ->
         nth_error items i =
           Some {| key := i; title := x; text := x;
                   onClick := FollowupQuestionClicked x |} /\
         effects (step p w (ClickFollowup i)) =
           effects w ++ [FollowupQuestionClicked x]).
Proof.
  split.
  - unfold render; simpl.
    destruct (followup_questions p) as [[|q qs]|]; simpl.
    + split; [congruence|]. intros [(q & qs & H) _]. discriminate.
    + destruct (showFollowupQuestions p) as [[|]|]; simpl;
        destruct (onFollowupQuestionClicked p); simpl;
        (split; [intros H; try congruence; repeat split; eauto
                |intros (_ & H1 & H2); try discriminate]).
    + split; [congruence|]. intros [(q & qs & H) _]. discriminate.
  - intros items Hitems.
    assert (Hq : exists qs, followup_questions p = Some qs /\
                            items = mapi followupAnchor qs).
    { revert Hitems. unfold render; simpl.
      destruct (followup_questions p) as [qs|]; [|discriminate].
      destruct (_ && _); [|discriminate].
      intros H. injection H as <-. eauto. }
    destruct Hq as (qs & Hqs & ->). exists qs. repeat split; trivial.
    + apply mapi_length.
    + rewrite mapi_nth, H. reflexivity.
    + unfold step, exec, dispatch, anchorAt. rewrite Hitems.
      rewrite mapi_nth, H. reflexivity.
Qed.

End Lists.

(** ** Feedback *)

Section Feedback.

Variable sanitize : jsstring -> jsstring.
Variable getCitationFilePath : jsstring -> jsstring.

Local Abbreviation step := (step sanitize getCitationFilePath).
Local Abbreviation run := (run sanitize getCitationFilePath).
Local Abbreviation render := (render sanitize getCitationFilePath).

(** The two closing controls of the dialog do the same thing. *)
Lemma step_cancel_dismiss (p : Props) (w : World) :
  step p w DismissDialog = step p w ClickCancel.
Proof. reflexivity. Qed.

Lemma step_dislike (p : Props) (w : World) :
  onFeedbackProvided p = true ->
  step p w ClickDislike =
  {| ui := {| copied := copied (ui w); feedbackState := Negative;
              isFeedbackDialogOpen := true;
              feedbackMessage := feedbackMessage (ui w) |};
     effects := effects w; now := now w; timers := timers w;
     pendingWrites := pendingWrites w |}.
Proof.
  intros Hcb. unfold step, exec, dispatch, handleFeedback.
  rewrite Hcb. reflexivity.
Qed.

Lemma step_like (p : Props) (w : World) :
  onFeedbackProvided p = true ->
  step p w ClickLike =
  let newState :=
    if Feedback_eqb (feedbackState (ui w)) Positive then Neutral else Positive in
  {| ui := {| copied := copied (ui w); feedbackState := newState;
              isFeedbackDialogOpen := isFeedbackDialogOpen (ui w);
              feedbackMessage := feedbackMessage (ui w) |};
     effects := effects w ++ [FeedbackProvided newState None];
     now := now w; timers := timers w;
     pendingWrites := pendingWrites w |}.
Proof.
  intros Hcb. unfold step, exec, dispatch, handleFeedback.
  rewrite Hcb. reflexivity.
Qed.

Lemma step_close (p : Props) (w : World) :
  step p w ClickCancel =
  {| ui := {| copied := copied (ui w); feedbackState := feedbackState (ui w);
              isFeedbackDialogOpen := false;
              feedbackMessage := feedbackMessage (ui w) |};
     effects := effects w; now := now w; timers := timers w;
     pendingWrites := pendingWrites w |}.
Proof. reflexivity. Qed.

Lemma step_submit (p : Props) (w : World) :
  onFeedbackProvided p = true ->
  step p w ClickSubmit =
  {| ui := {| copied := copied (ui w); feedbackState := feedbackState (ui w);
              isFeedbackDialogOpen := false;
              feedbackMessage := lit "" |};
     effects :=
       effects w ++ [FeedbackProvided Negative (Some (feedbackMessage (ui w)))];
     now := now w; timers := timers w;
     pendingWrites := pendingWrites w |}.
Proof.
  intros Hcb.
  unfold step, exec, dispatch, handleFeedbackSubmit.
  rewrite Hcb. reflexivity.
Qed.

Lemma step_change (p : Props) (w : World) (v : option jsstring) :
  effects (step p w (ChangeMessage v)) = effects w /\
  feedbackState (ui (step p w (ChangeMessage v))) = feedbackState (ui w) /\
  isFeedbackDialogOpen (ui (step p w (ChangeMessage v))) =
    isFeedbackDialogOpen (ui w).
Proof. repeat split. Qed.

(** Typing into the dialog calls nothing and leaves the feedback state
    and the dialog as they are. *)
Lemma run_changes (p : Props) (vs : list (option jsstring)) (w : World) :
  effects (run p w (map ChangeMessage vs)) = effects w /\
  feedbackState (ui (run p w (map ChangeMessage vs))) = feedbackState (ui w) /\
  isFeedbackDialogOpen (ui (run p w (map ChangeMessage vs))) =
    isFeedbackDialogOpen (ui w).
Proof.
  revert w. induction vs as [|v vs IH]; intros w; simpl.
  - repeat split.
  - destruct (IH (step p w (ChangeMessage v))) as (He & Hf & Ho).
    destruct (step_change p w v) as (He' & Hf' & Ho').
    unfold run in *. simpl.
    rewrite He, Hf, Ho. auto.
Qed.

(** C1 (as amended): with a feedback callback supplied, selecting Negative
    opens the dialog and sets the feedback state to Negative at once,
    whatever it was before; the dislike button is drawn in its selected
    colour from then on, before any submit.  The callback is not called and
    the message, the copied flag, the timers and the clock are untouched. *)
Theorem C1_negative_opens_dialog_and_selects (p : Props) (w : World) :
  onFeedbackProvided p = true ->
  let w' := step p w ClickDislike in
  isFeedbackDialogOpen (ui w') = true /\
  dialogHidden (render p (ui w')) = false /\
  feedbackState (ui w') = Negative /\
  feedbackButtons (render p (ui w')) =
    Some {| likeColor := lit "black"; dislikeColor := lit "darkred" |} /\
  effects w' = effects w /\
  feedbackMessage (ui w') = feedbackMessage (ui w) /\
  copied (ui w') = copied (ui w).
Proof.
  intros Hcb w'. subst w'. rewrite (step_dislike p w Hcb).
  unfold render. simpl. rewrite Hcb. repeat split.
Qed.

(** C2 (as amended): cancelling the dialog, by its cancel button or by
    dismissing it, calls no callback and closes the dialog; it changes no
    other state cell.  After selecting Negative and then cancelling, the
    feedback state is therefore Negative, as the selection left it, and
    not what it was before the selection. *)
Theorem C2_cancel_calls_nothing_keeps_negative
    (p : Props) (w : World) (e : Event) :
  onFeedbackProvided p = true ->
  e = ClickCancel \/ e = DismissDialog ->
  let w1 := step p w ClickDislike in
  let w2 := step p w1 e in
  effects w2 = effects w /\
  isFeedbackDialogOpen (ui w2) = false /\
  feedbackState (ui w2) = feedbackState (ui w1) /\
  feedbackState (ui w2) = Negative /\
  feedbackMessage (ui w2) = feedbackMessage (ui w) /\
  copied (ui w2) = copied (ui w).
Proof.
  intros Hcb He w1 w2.
  assert (Hw2 : w2 = step p w1 ClickCancel).
  { subst w2. destruct He; subst e; [reflexivity | apply step_cancel_dismiss]. }
  rewrite Hw2, step_close. subst w1. rewrite (step_dislike p w Hcb).
  simpl. repeat split.
Qed.

(** C3: from the Neutral feedback state, selecting Positive twice in a row
    ends in Neutral again and calls the feedback callback exactly twice,
    first with Positive and then with Neutral (no message either time). *)
Theorem C3_positive_twice_back_to_neutral (p : Props) (w : World) :
  onFeedbackProvided p = true ->
  feedbackState (ui w) = Neutral ->
  let w1 := step p w ClickLike in
  let w2 := run p w [ClickLike; ClickLike] in
  feedbackState (ui w1) = Positive /\
  feedbackState (ui w2) = Neutral /\
  effects w2 =
    effects w ++ [FeedbackProvided Positive None; FeedbackProvided Neutral None].
Proof.
  intros Hcb Hn w1 w2. subst w1 w2. unfold run. simpl.
  rewrite (step_like p (step p w ClickLike) Hcb).
  rewrite (step_like p w Hcb). simpl. rewrite Hn. simpl.
  rewrite <- app_assoc. repeat split.
Qed.

(** C4: with a feedback callback supplied, selecting Negative calls
    nothing, and neither does typing into the dialog afterwards; a submit
    while the message field holds [m] calls the callback exactly once,
    with Negative and [m], closes the dialog and empties the message
    field. *)
Theorem C4_submit_calls_once_with_message
    (p : Props) (w : World) (vs : list (option jsstring)) (m : jsstring) :
  onFeedbackProvided p = true ->
  let w1 := run p w (ClickDislike :: map ChangeMessage vs) in
  feedbackMessage (ui w1) = m ->
  let w2 := step p w1 ClickSubmit in
  effects (step p w ClickDislike) = effects w /\
  effects w1 = effects w /\
  isFeedbackDialogOpen (ui w1) = true /\
  effects w2 = effects w ++ [FeedbackProvided Negative (Some m)] /\
  isFeedbackDialogOpen (ui w2) = false /\
  feedbackMessage (ui w2) = lit "".
Proof.
  intros Hcb w1 Hm w2.
  assert (Hd : effects (step p w ClickDislike) = effects w /\
               isFeedbackDialogOpen (ui (step p w ClickDislike)) = true).
  { rewrite (step_dislike p w Hcb). split; reflexivity. }
  destruct Hd as [Hd Ho].
  assert (H1 : effects w1 = effects w /\ isFeedbackDialogOpen (ui w1) = true).
  { subst w1. unfold run. simpl.
    destruct (run_changes p vs (step p w ClickDislike)) as (He & _ & Hopen).
    unfold run in He, Hopen. rewrite He, Hopen. auto. }
  destruct H1 as [He1 Ho1].
  subst w2. rewrite (step_submit p w1 Hcb). simpl.
  rewrite Hm, He1. repeat split; assumption.
Qed.

(** Timers only ever touch the copied flag. *)
Lemma fire_frame (ts : list Timer) (t : N) (w : World) :
  let w' := exec (fire ts t) w in
  feedbackState (ui w') = feedbackState (ui w) /\
  isFeedbackDialogOpen (ui w') = isFeedbackDialogOpen (ui w) /\
  feedbackMessage (ui w') = feedbackMessage (ui w) /\
  effects w' = effects w.
Proof.
  revert w. induction ts as [|x ts IH]; intros w; simpl.
  - repeat split.
  - unfold exec, bind in *. simpl.
    destruct (due x <=? t)%N; [destruct (callback x)|]; simpl;
      match goal with
      | |- context [fire ts t ?w0] => destruct (IH w0) as (A & B & C & D)
      end; simpl in *; rewrite A, B, C, D; repeat split.
Qed.

(** Only the feedback buttons and the closing controls of the dialog
    change the feedback state or the visibility of the dialog. *)
Lemma step_frame (p : Props) (w : World) (e : Event) :
  match e with
  | ClickLike | ClickDislike | ClickSubmit | ClickCancel | DismissDialog => True
  | _ =>
      feedbackState (ui (step p w e)) = feedbackState (ui w) /\
      isFeedbackDialogOpen (ui (step p w e)) = isFeedbackDialogOpen (ui w)
  end.
Proof.
  destruct e; try exact I; try (split; reflexivity).
  - (* Elapse *)
    unfold step, exec, dispatch, elapse.
    match goal with
    | |- context [fire ?ts ?t ?w0] =>
        destruct (fire_frame ts t w0) as (A & B & _ & _)
    end.
    unfold exec in A, B. rewrite A, B. split; reflexivity.
  - (* ClickCitation *)
    unfold step, exec, dispatch, clickAnchor.
    destruct (anchorAt _ i); split; reflexivity.
  - (* ClickFollowup *)
    unfold step, exec, dispatch, clickAnchor.
    destruct (anchorAt _ i); split; reflexivity.
Qed.

Lemma step_like_keeps_dialog (p : Props) (w : World) :
  isFeedbackDialogOpen (ui (step p w ClickLike)) = isFeedbackDialogOpen (ui w).
Proof.
  unfold step, exec, dispatch, handleFeedback.
  destruct (onFeedbackProvided p); reflexivity.
Qed.

Lemma step_closes (p : Props) (w : World) (e : Event) :
  closes_dialog e = true -> isFeedbackDialogOpen (ui (step p w e)) = false.
Proof.
  destruct e; try discriminate; intros _; try reflexivity.
  unfold step, exec, dispatch, handleFeedbackSubmit.
  destruct (onFeedbackProvided p); reflexivity.
Qed.

Lemma step_dislike_cells (p : Props) (w : World) :
  isFeedbackDialogOpen (ui (step p w ClickDislike)) = true ->
  feedbackState (ui (step p w ClickDislike)) = Negative \/
  isFeedbackDialogOpen (ui w) = true.
Proof.
  unfold step, exec, dispatch, handleFeedback.
  destruct (onFeedbackProvided p); simpl; auto.
Qed.

(** C5: in every state that the component reaches, the dialog being
    modal, the dialog is open only while the feedback state is Negative,
    and only if a Negative selection happened and no submit, cancel or
    dismissal came after it: no history ends with the dialog open over a
    Neutral or Positive state. *)
Theorem C5_open_dialog_invariant_modal
    (p : Props) (es : list Event) (w : World) :
  trace sanitize getCitationFilePath
    (modal_enabled sanitize getCitationFilePath) p es w ->
  isFeedbackDialogOpen (ui w) = true ->
  feedbackState (ui w) = Negative /\
  exists es1 es2,
    es = es1 ++ ClickDislike :: es2 /\
    forallb (fun e => negb (closes_dialog e)) es2 = true.
Proof.
  induction 1 as [|es w e Htr IH Hok]; intros Hopen.
  - discriminate.
  - unfold modal_enabled in Hok. apply andb_prop in Hok as [_ Hmodal].
    destruct (closes_dialog e) eqn:Hcl.
    { rewrite (step_closes p w e Hcl) in Hopen. discriminate. }
    destruct (isFeedbackDialogOpen (ui w)) eqn:Hw.
    + (* the dialog was open: only an event of the dialog or of the
         environment can have happened *)
      destruct (IH eq_refl) as (Hneg & es1 & es2 & Hes & Hno).
      simpl in Hmodal. apply negb_true_iff in Hmodal.
      assert (Hkeep : feedbackState (ui (step p w e)) = feedbackState (ui w)).
      { pose proof (step_frame p w e) as Hf.
        destruct e; try discriminate; apply Hf. }
      split; [congruence|].
      exists es1, (es2 ++ [e]). split.
      * rewrite Hes, <- app_assoc. reflexivity.
      * rewrite forallb_app, Hno. simpl. rewrite Hcl. reflexivity.
    + (* the dialog was closed: it has just been opened *)
      assert (He : e = ClickDislike).
      { pose proof (step_frame p w e) as Hf.
        pose proof (step_like_keeps_dialog p w) as Hl.
        destruct e; try discriminate; try reflexivity;
          try (rewrite (proj2 Hf) in Hopen; congruence); congruence. }
      subst e. split.
      * destruct (step_dislike_cells p w Hopen); congruence.
      * exists es, []. split; reflexivity.
Qed.

(** What a link of either block calls when clicked. *)
Lemma anchor_onClick (p : Props) (r : State) (i : nat) (a : Anchor) :
  anchorAt (citationList (render p r)) i = Some a \/
  anchorAt (followupList (render p r)) i = Some a ->
  (exists path, onClick a = CitationClicked path) \/
  (exists q, onClick a = FollowupQuestionClicked q).
Proof.
  unfold render; simpl. intros [H|H].
  - left. destruct (negb _); simpl in H; [|discriminate].
    rewrite mapi_nth in H. destruct (nth_error (citations p) i); simpl in H;
      [|discriminate].
    injection H as <-. simpl. eauto.
  - right. destruct (followup_questions p) as [qs|]; [|discriminate].
    destruct (_ && _); simpl in H; [|discriminate].
    rewrite mapi_nth in H. destruct (nth_error qs i); simpl in H;
      [|discriminate].
    injection H as <-. simpl. eauto.
Qed.

Lemma step_emits (p : Props) (w : World) (e : Event) :
  exists l,
    effects (step p w e) = effects w ++ l /\
    forall x, In x l -> accounted w e x.
Proof.
  assert (Hnone : forall w', effects w' = effects w ->
            exists l, effects w' = effects w ++ l /\
                      forall x, In x l -> accounted w e x).
  { intros w' H. exists []. rewrite app_nil_r. split; [exact H|].
    intros x []. }
  assert (Hone : forall w' y, effects w' = effects w ++ [y] ->
            accounted w e y ->
            exists l, effects w' = effects w ++ l /\
                      forall x, In x l -> accounted w e x).
  { intros w' y H Hy. exists [y]. split; [exact H|].
    intros x [<-|[]]. exact Hy. }
  destruct e.
  - (* ClickCopy *) eapply Hone; [reflexivity | exact I].
  - (* ClipboardFulfilled *) apply Hnone. reflexivity.
  - (* ClipboardRejected *) eapply Hone; [reflexivity | split; reflexivity].
  - (* Elapse *)
    apply Hnone. unfold step, exec, dispatch, elapse.
    match goal with
    | |- context [fire ?ts ?t ?w0] =>
        destruct (fire_frame ts t w0) as (_ & _ & _ & D)
    end.
    exact D.
  - eapply Hone; [reflexivity | exact I].
  - eapply Hone; [reflexivity | exact I].
  - (* ClickLike *)
    unfold step, exec, dispatch, handleFeedback.
    destruct (onFeedbackProvided p).
    + eapply Hone; [reflexivity | exact I].
    + apply Hnone. reflexivity.
  - (* ClickDislike *)
    unfold step, exec, dispatch, handleFeedback.
    destruct (onFeedbackProvided p); apply Hnone; reflexivity.
  - (* ClickCitation *)
    unfold step, exec, dispatch.
    destruct (anchorAt (citationList (render p (ui w))) i) as [a|] eqn:Ha.
    + eapply Hone; [reflexivity|].
      destruct (anchor_onClick p (ui w) i a (or_introl Ha)) as [[? ->]|[? ->]];
        exact I.
    + apply Hnone. reflexivity.
  - (* ClickFollowup *)
    unfold step, exec, dispatch.
    destruct (anchorAt (followupList (render p (ui w))) i) as [a|] eqn:Ha.
    + eapply Hone; [reflexivity|].
      destruct (anchor_onClick p (ui w) i a (or_intror Ha)) as [[? ->]|[? ->]];
        exact I.
    + apply Hnone. reflexivity.
  - (* ChangeMessage *) apply Hnone. reflexivity.
  - (* ClickSubmit *)
    unfold step, exec, dispatch, handleFeedbackSubmit.
    destruct (onFeedbackProvided p).
    + eapply Hone; [reflexivity | repeat split].
    + apply Hnone. reflexivity.
  - apply Hnone. reflexivity.
  - apply Hnone. reflexivity.
Qed.

(** C10: the submit button is disabled whenever the message field is
    empty or holds white space only, so no history of the component in
    which every event was possible when it happened contains a feedback
    call with a blank message: every message passed to the callback has a
    non-empty [trim], and it is passed with Negative. *)
Theorem C10_no_blank_message_submitted
    (p : Props) (es : list Event) (w : World) (f : Feedback) (m : jsstring) :
  trace sanitize getCitationFilePath
    (enabled sanitize getCitationFilePath) p es w ->
  In (FeedbackProvided f (Some m)) (effects w) ->
  f = Negative /\ trim m <> [] /\ blank m = false /\
  (forall s, blank (feedbackMessage s) = true ->
             submitDisabled (render p s) = true).
Proof.
  intros Htr Hin.
  assert (Hdis : forall s, submitDisabled (render p s) =
                           blank (feedbackMessage s)).
  { intros s. unfold render; simpl. rewrite truthy_trim. apply negb_involutive. }
  assert (Hmain : f = Negative /\ blank m = false).
  { induction Htr as [|es w e Htr IH Hok].
    - destruct Hin.
    - destruct (step_emits p w e) as (l & Hl & Hacc).
      rewrite Hl in Hin. apply in_app_or in Hin as [Hin|Hin]; [auto|].
      destruct (Hacc _ Hin) as (-> & -> & ->).
      split; [reflexivity|].
      unfold enabled in Hok.
      apply negb_true_iff in Hok. rewrite Hdis in Hok. exact Hok. }
  destruct Hmain as [Hf Hb]. repeat split; trivial.
  - intros Ht. apply trim_nil in Ht. congruence.
  - intros s Hs. rewrite Hdis. exact Hs.
Qed.

End Feedback.

(** ** Copy to clipboard *)

Section Copy.

Variable sanitize : jsstring -> jsstring.
Variable getCitationFilePath : jsstring -> jsstring.

Local Abbreviation step := (step sanitize getCitationFilePath).
Local Abbreviation run := (run sanitize getCitationFilePath).
Local Abbreviation render := (render sanitize getCitationFilePath).

Lemma step_copy (p : Props) (w : World) :
  step p w ClickCopy =
  {| ui := ui w;
     effects := effects w ++ [ClipboardWriteText (textToCopy sanitize p)];
     now := now w; timers := timers w;
     pendingWrites := S (pendingWrites w) |}.
Proof. reflexivity. Qed.

Lemma step_fulfilled (p : Props) (w : World) :
  step p w ClipboardFulfilled =
  {| ui := {| copied := true; feedbackState := feedbackState (ui w);
              isFeedbackDialogOpen := isFeedbackDialogOpen (ui w);
              feedbackMessage := feedbackMessage (ui w) |};
     effects := effects w; now := now w;
     timers := timers w ++ [{| due := (now w + 2000)%N;
                               callback := ClearCopied |}];
     pendingWrites := pred (pendingWrites w) |}.
Proof. reflexivity. Qed.

Lemma step_rejected (p : Props) (w : World) (err : jsstring) :
  step p w (ClipboardRejected err) =
  {| ui := ui w;
     effects := effects w ++ [ConsoleError (lit "Failed to copy text: ") err];
     now := now w; timers := timers w;
     pendingWrites := pred (pendingWrites w) |}.
Proof. reflexivity. Qed.

(** With no timer set, the passing of time changes no state cell. *)
Lemma elapse_idle (p : Props) (ds : list N) :
  forall w, timers w = [] ->
  ui (run p w (map Elapse ds)) = ui w /\
  timers (run p w (map Elapse ds)) = [].
Proof.
  induction ds as [|d ds IH]; intros w Ht; [split; [reflexivity | exact Ht]|].
  unfold run in *. cbn [map fold_left].
  assert (Hs : ui (step p w (Elapse d)) = ui w /\
               timers (step p w (Elapse d)) = []).
  { unfold step, exec, dispatch, elapse. rewrite Ht. split; reflexivity. }
  destruct Hs as [Hu Ht']. destruct (IH _ Ht') as [A B].
  rewrite A, B. split; [exact Hu | reflexivity].
Qed.

(** The one timer of a successful copy clears the flag when the clock
    reaches its time, however the time until then is cut up. *)
Lemma elapse_countdown (p : Props) (t0 : N) (ds : list N) :
  forall w,
    timers w = [{| due := (t0 + 2000)%N; callback := ClearCopied |}] ->
    copied (ui w) = true ->
    (now w < t0 + 2000)%N ->
    copied (ui (run p w (map Elapse ds))) =
      (now w + total ds <? t0 + 2000)%N.
Proof.
  induction ds as [|d ds IH]; intros w Ht Hc Hnow.
  - cbn [map total fold_right]. unfold run. cbn [fold_left].
    rewrite N.add_0_r, Hc. symmetry. apply N.ltb_lt. exact Hnow.
  - unfold run in *. cbn [map fold_left total fold_right].
    fold (total ds).
    destruct (N.leb_spec (t0 + 2000) (now w + d)) as [Hdue|Hdue].
    + (* the timer fires *)
      assert (Hs : ui (step p w (Elapse d)) =
                   {| copied := false; feedbackState := feedbackState (ui w);
                      isFeedbackDialogOpen := isFeedbackDialogOpen (ui w);
                      feedbackMessage := feedbackMessage (ui w) |} /\
                   timers (step p w (Elapse d)) = []).
      { unfold step, exec, dispatch, elapse. rewrite Ht.
        cbn [fire filter due callback].
        apply N.leb_le in Hdue. rewrite Hdue. split; reflexivity. }
      destruct Hs as [Hu Ht'].
      destruct (elapse_idle p ds _ Ht') as [A _]. unfold run in A.
      rewrite A, Hu. cbn [copied]. symmetry. apply N.ltb_ge. lia.
    + (* not yet *)
      assert (Hs : ui (step p w (Elapse d)) = ui w /\
                   timers (step p w (Elapse d)) = timers w /\
                   now (step p w (Elapse d)) = (now w + d)%N).
      { unfold step, exec, dispatch, elapse. rewrite Ht.
        cbn [fire filter due callback].
        apply N.leb_gt in Hdue. rewrite Hdue. repeat split. }
      destruct Hs as (Hu & Ht' & Hn).
      rewrite IH.
      * rewrite Hn, N.add_assoc. reflexivity.
      * rewrite Ht'. exact Ht.
      * rewrite Hu. exact Hc.
      * rewrite Hn. exact Hdue.
Qed.

(** C6: the copy action writes to the clipboard the sanitized HTML with
    every match of the one pattern deleted in a single replacement.  What
    is written has no match of the pattern left in it, neither citation
    markup nor any other tag, and for the sanitized HTML
    [<a href=x><sup>1</sup></a>Hello <b>world</b>] it is exactly
    [Hello world]. *)
Theorem C6_copy_strips_markup (p : Props) (w : World) (html : jsstring) :
  sanitize (answerHtml p) = html ->
  let written := replace_all_empty citation_or_tag html in
  effects (step p w ClickCopy) = effects w ++ [ClipboardWriteText written] /\
  (forall t, suffix_of t written -> match_length citation_or_tag t = None) /\
  (html = lit "<a href=x><sup>1</sup></a>Hello <b>world</b>" ->
   written = lit "Hello world").
Proof.
  intros Hhtml written. split; [|split].
  - rewrite step_copy. unfold textToCopy, sanitizedAnswerHtml.
    rewrite Hhtml. reflexivity.
  - intros t. apply replace_leaves_no_match.
  - intros ->. subst written. vm_compute. reflexivity.
Qed.

(** What the timers that fire do to the world: they clear the copied
    flag and touch nothing else. *)
Lemma fire_copied (ts : list Timer) (t : N) :
  forall w,
    let w' := exec (fire ts t) w in
    copied (ui w') =
      (if existsb (fun x => due x <=? t)%N ts then false else copied (ui w)) /\
    timers w' = timers w /\ now w' = now w.
Proof.
  induction ts as [|x ts IH]; intros w; simpl.
  - repeat split.
  - unfold exec, bind in *. simpl.
    destruct (due x <=? t)%N; [destruct (callback x)|]; simpl;
      match goal with
      | |- context [fire ts t ?w0] => destruct (IH w0) as (A & B & C)
      end; simpl in *; rewrite A, B, C;
      [destruct (existsb _ ts)|]; repeat split.
Qed.

Lemma step_elapse (p : Props) (w : World) (d : N) :
  let w' := step p w (Elapse d) in
  copied (ui w') =
    (if existsb (fun x => due x <=? now w + d)%N (timers w)
     then false else copied (ui w)) /\
  timers w' = filter (fun x => negb (due x <=? now w + d)%N) (timers w) /\
  now w' = (now w + d)%N.
Proof.
  unfold step, exec, dispatch, elapse.
  match goal with
  | |- context [fire ?ts ?t ?w0] => destruct (fire_copied ts t w0) as (A & B & C)
  end.
  unfold exec in A, B, C. rewrite A, B, C. repeat split.
Qed.

(** The passing of time never sets the flag. *)
Lemma elapse_keeps_false (p : Props) (ds : list N) :
  forall w, copied (ui w) = false ->
  copied (ui (run p w (map Elapse ds))) = false.
Proof.
  induction ds as [|d ds IH]; intros w Hc; [exact Hc|].
  unfold run in *. cbn [map fold_left]. apply IH.
  destruct (step_elapse p w d) as (A & _ & _). rewrite A, Hc.
  destruct (existsb _ (timers w)); reflexivity.
Qed.

(** Once the time of a timer has come, the flag is down. *)
Lemma elapse_clears (p : Props) (T : Timer) (ds : list N) :
  forall w,
    In T (timers w) ->
    (now w < due T)%N ->
    (due T <= now w + total ds)%N ->
    copied (ui (run p w (map Elapse ds))) = false.
Proof.
  induction ds as [|d ds IH]; intros w Hin Hnow Hdue.
  - cbn [total fold_right] in Hdue. lia.
  - unfold run in *. cbn [map fold_left]. cbn [total fold_right] in Hdue.
    fold (total ds) in Hdue.
    destruct (step_elapse p w d) as (A & B & C).
    destruct (N.leb_spec (due T) (now w + d)) as [Hfire|Hwait].
    + apply elapse_keeps_false. rewrite A.
      assert (Hex : existsb (fun x => due x <=? now w + d)%N (timers w) = true).
      { apply existsb_exists. exists T. split; [exact Hin|].
        apply N.leb_le. exact Hfire. }
      rewrite Hex. reflexivity.
    + apply IH.
      * rewrite B. apply filter_In. split; [exact Hin|].
        apply negb_true_iff. apply N.leb_gt. exact Hwait.
      * rewrite C. exact Hwait.
      * rewrite C. lia.
Qed.

(** C9: the clipboard write is the one thing that can fail.  When it
    succeeds, the copied flag becomes true and a timer of 2000 ms is set;
    once 2000 ms have passed the flag is false again, and with no earlier
    timer around it is true for all of these 2000 ms.  When the write is
    rejected, the error goes to the console and nowhere else: no state
    cell changes, the view is the same, and a flag that was false stays
    false, now and later.  No other event writes an error to the
    console. *)
Theorem C9_clipboard_outcomes
    (p : Props) (w : World) (err : jsstring) (ds : list N) :
  let w0 := step p w ClickCopy in
  let ok := step p w0 ClipboardFulfilled in
  let ko := step p w0 (ClipboardRejected err) in
  (copied (ui ok) = true /\
   timers ok =
     timers w ++ [{| due := (now w + 2000)%N; callback := ClearCopied |}] /\
   effects ok = effects w0 /\
   ((2000 <= total ds)%N ->
    copied (ui (run p ok (map Elapse ds))) = false) /\
   (timers w = [] ->
    copied (ui (run p ok (map Elapse ds))) = (total ds <? 2000)%N)) /\
  (ui ko = ui w /\
   render p (ui ko) = render p (ui w) /\
   effects ko =
     effects w0 ++ [ConsoleError (lit "Failed to copy text: ") err] /\
   timers ko = timers w /\
   (copied (ui w) = false ->
    copied (ui (run p ko (map Elapse ds))) = false)) /\
  (forall w' e label err',
     In (ConsoleError label err') (effects (step p w' e)) ->
     In (ConsoleError label err') (effects w') \/ e = ClipboardRejected err').
Proof.
  intros w0 ok ko.
  assert (Hok : timers ok =
                timers w ++
                [{| due := (now w + 2000)%N; callback := ClearCopied |}]).
  { subst ok w0. rewrite step_fulfilled, step_copy. reflexivity. }
  assert (Hnow : now ok = now w).
  { subst ok w0. rewrite step_fulfilled, step_copy. reflexivity. }
  split; [|split].
  - split; [reflexivity|]. split; [exact Hok|]. split; [reflexivity|]. split.
    + intros Hlate.
      apply (elapse_clears p
               {| due := (now w + 2000)%N; callback := ClearCopied |}).
      * rewrite Hok. apply in_or_app. right. left. reflexivity.
      * rewrite Hnow. cbn [due]. lia.
      * rewrite Hnow. cbn [due]. lia.
    + intros Ht. rewrite Ht in Hok.
      rewrite (elapse_countdown p (now w) ds ok Hok).
      * rewrite Hnow.
        destruct (N.ltb_spec (total ds) 2000);
          [apply N.ltb_lt | apply N.ltb_ge]; lia.
      * reflexivity.
      * rewrite Hnow. lia.
  - split; [reflexivity|]. split; [reflexivity|]. split; [reflexivity|].
    split; [reflexivity|].
    intros Hc. apply elapse_keeps_false. exact Hc.
  - intros w' e label err' Hin.
    destruct (step_emits sanitize getCitationFilePath p w' e)
      as (l & Hl & Hacc).
    rewrite Hl in Hin. apply in_app_or in Hin as [Hin|Hin]; [left; exact Hin|].
    right. apply (Hacc _ Hin).
Qed.

End Copy.

(** ** Histories *)

Section Histories.

Variable sanitize : jsstring -> jsstring.
Variable getCitationFilePath : jsstring -> jsstring.
Variable ok : Props -> World -> Event -> bool.

Local Abbreviation step := (step sanitize getCitationFilePath).
Local Abbreviation run := (run sanitize getCitationFilePath).
Local Abbreviation admissible := (admissible sanitize getCitationFilePath ok).

Lemma admissible_snoc (p : Props) (es : list Event) (e : Event) :
  forall w,
    admissible p w (es ++ [e]) =
    admissible p w es && ok p (run p w es) e.
Proof.
  induction es as [|x es IH]; intros w; simpl.
  - apply andb_true_r.
  - rewrite IH. apply andb_assoc.
Qed.

(** A list of events, each possible in its turn, is a history. *)
Lemma trace_run (p : Props) (es : list Event) :
  admissible p initialWorld es = true ->
  trace sanitize getCitationFilePath ok p es (run p initialWorld es).
Proof.
  induction es as [|e es IH] using rev_ind; intros H.
  - constructor.
  - rewrite admissible_snoc in H. apply andb_prop in H as [Hes He].
    unfold run. rewrite fold_left_app. simpl.
    constructor; [apply IH; exact Hes | exact He].
Qed.

End Histories.

(** ** The contract on an example

    The answer of [demoProps], operated from the state it is mounted
    in. *)

(** From the Neutral state, a Negative selection changes the feedback
    state and the colour of the dislike button before any submit. *)
Lemma C1_counterexample :
  feedbackState (ui initialWorld) = Neutral /\
  isFeedbackDialogOpen (ui (demoStep initialWorld ClickDislike)) = true /\
  feedbackState (ui (demoStep initialWorld ClickDislike)) = Negative /\
  feedbackState (ui (demoStep initialWorld ClickDislike))
    <> feedbackState (ui initialWorld) /\
  feedbackButtons (demoRender (ui (demoStep initialWorld ClickDislike)))
    <> feedbackButtons (demoRender (ui initialWorld)).
Proof. repeat split; try reflexivity; discriminate. Qed.

(** The same from the Positive state: Negative at once, dialog open,
    nothing called. *)
Lemma C1_witness :
  onFeedbackProvided demoProps = true /\
  feedbackState (ui (demoRun [ClickLike])) = Positive /\
  feedbackState (ui (demoStep (demoRun [ClickLike]) ClickDislike)) = Negative /\
  isFeedbackDialogOpen (ui (demoStep (demoRun [ClickLike]) ClickDislike)) = true /\
  effects (demoStep (demoRun [ClickLike]) ClickDislike) =
    [FeedbackProvided Positive None].
Proof.
  destruct (C1_negative_opens_dialog_and_selects demoSanitize demoPath
              demoProps (demoRun [ClickLike]) eq_refl)
    as (Hopen & _ & Hneg & _ & Heff & _).
  split; [reflexivity|]. split; [reflexivity|].
  split; [exact Hneg|]. split; [exact Hopen | exact Heff].
Defined.

(** Selecting Negative from Neutral and cancelling, either way, ends in
    Negative, not in Neutral. *)
Lemma C2_counterexample :
  feedbackState (ui initialWorld) = Neutral /\
  feedbackState (ui (demoRun [ClickDislike; ClickCancel])) = Negative /\
  feedbackState (ui (demoRun [ClickDislike; DismissDialog])) = Negative /\
  feedbackState (ui (demoRun [ClickDislike; ClickCancel]))
    <> feedbackState (ui initialWorld) /\
  effects (demoRun [ClickDislike; ClickCancel]) = [].
Proof. repeat split; try reflexivity; discriminate. Qed.

(** Dismissing after a Negative selection made in the Positive state. *)
Lemma C2_witness :
  onFeedbackProvided demoProps = true /\
  feedbackState (ui (demoRun [ClickLike])) = Positive /\
  feedbackState
    (ui (demoStep (demoStep (demoRun [ClickLike]) ClickDislike) DismissDialog))
    = Negative /\
  effects (demoStep (demoStep (demoRun [ClickLike]) ClickDislike) DismissDialog)
    = effects (demoRun [ClickLike]).
Proof.
  destruct (C2_cancel_calls_nothing_keeps_negative demoSanitize demoPath
              demoProps (demoRun [ClickLike]) DismissDialog eq_refl
              (or_intror eq_refl))
    as (Heff & _ & _ & Hneg & _).
  split; [reflexivity|]. split; [reflexivity|].
  split; [exact Hneg | exact Heff].
Defined.

(** Two Positive selections on the freshly mounted component. *)
Lemma C3_witness :
  onFeedbackProvided demoProps = true /\
  feedbackState (ui initialWorld) = Neutral /\
  feedbackState (ui (demoRun [ClickLike; ClickLike])) = Neutral /\
  effects (demoRun [ClickLike; ClickLike]) =
    [FeedbackProvided Positive None; FeedbackProvided Neutral None].
Proof.
  destruct (C3_positive_twice_back_to_neutral demoSanitize demoPath
              demoProps initialWorld eq_refl eq_refl)
    as (_ & Hn & Heff).
  split; [reflexivity|]. split; [reflexivity|].
  split; [exact Hn | exact Heff].
Defined.

(** Selecting Negative, typing a message in two steps and submitting. *)
Lemma C4_witness :
  onFeedbackProvided demoProps = true /\
  feedbackMessage
    (ui (demoRun [ClickDislike; ChangeMessage (Some (lit "too"));
                  ChangeMessage (Some (lit "too slow"))]))
    = lit "too slow" /\
  effects (demoRun [ClickDislike; ChangeMessage (Some (lit "too"));
                    ChangeMessage (Some (lit "too slow"))]) = [] /\
  effects (demoRun [ClickDislike; ChangeMessage (Some (lit "too"));
                    ChangeMessage (Some (lit "too slow")); ClickSubmit])
    = [FeedbackProvided Negative (Some (lit "too slow"))] /\
  isFeedbackDialogOpen
    (ui (demoRun [ClickDislike; ChangeMessage (Some (lit "too"));
                  ChangeMessage (Some (lit "too slow")); ClickSubmit]))
    = false /\
  feedbackMessage
    (ui (demoRun [ClickDislike; ChangeMessage (Some (lit "too"));
                  ChangeMessage (Some (lit "too slow")); ClickSubmit]))
    = lit "".
Proof.
  destruct (C4_submit_calls_once_with_message demoSanitize demoPath
              demoProps initialWorld
              [Some (lit "too"); Some (lit "too slow")] (lit "too slow")
              eq_refl eq_refl)
    as (_ & He1 & _ & He2 & Hclosed & Hmsg).
  split; [reflexivity|]. split; [reflexivity|].
  split; [exact He1|]. split; [exact He2|].
  split; [exact Hclosed | exact Hmsg].
Defined.

(** A history that respects the dialog, ending with the dialog open. *)
Lemma C5_witness :
  trace demoSanitize demoPath (modal_enabled demoSanitize demoPath) demoProps
    [ClickLike; ClickDislike; ChangeMessage (Some (lit "too slow"))]
    (demoRun [ClickLike; ClickDislike; ChangeMessage (Some (lit "too slow"))]) /\
  isFeedbackDialogOpen
    (ui (demoRun [ClickLike; ClickDislike;
                  ChangeMessage (Some (lit "too slow"))])) = true /\
  feedbackState
    (ui (demoRun [ClickLike; ClickDislike;
                  ChangeMessage (Some (lit "too slow"))])) = Negative.
Proof.
  assert (Htr : trace demoSanitize demoPath
                  (modal_enabled demoSanitize demoPath) demoProps
                  [ClickLike; ClickDislike; ChangeMessage (Some (lit "too slow"))]
                  (demoRun [ClickLike; ClickDislike;
                            ChangeMessage (Some (lit "too slow"))])).
  { apply trace_run. reflexivity. }
  split; [exact Htr|]. split; [reflexivity|].
  exact (proj1 (C5_open_dialog_invariant_modal demoSanitize demoPath
                  demoProps _ _ Htr eq_refl)).
Defined.

(** The answer of the example is copied as its plain text. *)
Lemma C6_witness :
  demoSanitize (answerHtml demoProps)
    = lit "<a href=x><sup>1</sup></a>Hello <b>world</b>" /\
  effects (demoStep initialWorld ClickCopy)
    = [ClipboardWriteText (lit "Hello world")].
Proof.
  destruct (C6_copy_strips_markup demoSanitize demoPath demoProps
              initialWorld _ eq_refl)
    as (Heff & _ & Hex).
  split; [reflexivity|].
  cbv zeta in Hex. unfold demoStep. rewrite Heff, (Hex eq_refl). reflexivity.
Defined.

(** The two citations of the example: two links, the second numbered 2
    and calling the handler with the path of the second citation. *)
Lemma C7_witness :
  length (links (citationList (demoRender (ui initialWorld)))) = 2 /\
  nth_error (links (citationList (demoRender (ui initialWorld)))) 1
    = Some {| key := 2; title := lit "b.pdf"; text := lit "2. b.pdf";
              onClick := CitationClicked (lit "/content/b.pdf") |} /\
  effects (demoStep initialWorld (ClickCitation 1))
    = [CitationClicked (lit "/content/b.pdf")].
Proof.
  destruct (C7_citation_links demoSanitize demoPath demoProps initialWorld)
    as (Hlen & _ & Hat).
  destruct (Hat 1 (lit "b.pdf") eq_refl) as [Hb Hclick].
  split; [exact Hlen|]. split; [exact Hb | exact Hclick].
Defined.

(** The follow-up question of the example is shown and clickable. *)
Lemma C8_witness :
  followupList (demoRender (ui initialWorld))
    = Some [{| key := 0; title := lit "What next?"; text := lit "What next?";
               onClick := FollowupQuestionClicked (lit "What next?") |}] /\
  effects (demoStep initialWorld (ClickFollowup 0))
    = [FollowupQuestionClicked (lit "What next?")].
Proof.
  destruct (C8_followup_block demoSanitize demoPath demoProps initialWorld)
    as [_ Hitems].
  destruct (Hitems _ eq_refl) as (qs & Hqs & _ & Hat).
  change (Some [lit "What next?"] = Some qs) in Hqs. injection Hqs as <-.
  destruct (Hat 0 (lit "What next?") eq_refl) as [_ Hclick].
  split; [reflexivity | exact Hclick].
Defined.

(** A successful copy is confirmed for 2000 ms; a rejected one changes
    nothing and logs the error. *)
Lemma C9_witness :
  copied (ui (demoRun [ClickCopy; ClipboardFulfilled])) = true /\
  copied (ui (demoRun [ClickCopy; ClipboardFulfilled;
                       Elapse 1500; Elapse 499])) = true /\
  copied (ui (demoRun [ClickCopy; ClipboardFulfilled;
                       Elapse 1500; Elapse 500])) = false /\
  ui (demoRun [ClickCopy; ClipboardRejected (lit "NotAllowedError")])
    = initialState /\
  effects (demoRun [ClickCopy; ClipboardRejected (lit "NotAllowedError")])
    = [ClipboardWriteText (lit "Hello world");
       ConsoleError (lit "Failed to copy text: ") (lit "NotAllowedError")].
Proof.
  destruct (C9_clipboard_outcomes demoSanitize demoPath demoProps
              initialWorld (lit "NotAllowedError") [1500; 499]%N)
    as ((Hc & _ & _ & _ & Hearly) & (Hui & _ & Heff & _) & _).
  destruct (C9_clipboard_outcomes demoSanitize demoPath demoProps
              initialWorld (lit "NotAllowedError") [1500; 500]%N)
    as ((_ & _ & _ & Hlate & _) & _).
  split; [exact Hc|]. split; [exact (Hearly eq_refl)|].
  split; [apply Hlate; vm_compute; discriminate|].
  split; [exact Hui | exact Heff].
Defined.

(** A message with text is submitted as typed; with a message of three
    spaces the submit button cannot be clicked. *)
Lemma C10_witness :
  trace demoSanitize demoPath (enabled demoSanitize demoPath) demoProps
    [ClickDislike; ChangeMessage (Some (lit " too slow ")); ClickSubmit]
    (demoRun [ClickDislike; ChangeMessage (Some (lit " too slow "));
              ClickSubmit]) /\
  In (FeedbackProvided Negative (Some (lit " too slow ")))
    (effects (demoRun [ClickDislike; ChangeMessage (Some (lit " too slow "));
                       ClickSubmit])) /\
  blank (lit " too slow ") = false /\
  enabled demoSanitize demoPath demoProps
    (demoRun [ClickDislike; ChangeMessage (Some (lit "   "))]) ClickSubmit
    = false.
Proof.
  assert (Htr : trace demoSanitize demoPath (enabled demoSanitize demoPath)
                  demoProps
                  [ClickDislike; ChangeMessage (Some (lit " too slow "));
                   ClickSubmit]
                  (demoRun [ClickDislike;
                            ChangeMessage (Some (lit " too slow "));
                            ClickSubmit])).
  { apply trace_run. reflexivity. }
  assert (Hin : In (FeedbackProvided Negative (Some (lit " too slow ")))
                  (effects (demoRun [ClickDislike;
                                     ChangeMessage (Some (lit " too slow "));
                                     ClickSubmit]))).
  { left. reflexivity. }
  destruct (C10_no_blank_message_submitted demoSanitize demoPath demoProps
              _ _ Negative (lit " too slow ") Htr Hin)
    as (_ & _ & Hb & Hdis).
  split; [exact Htr|]. split; [exact Hin|]. split; [exact Hb|].
  unfold enabled.
  rewrite (Hdis (ui (demoRun [ClickDislike; ChangeMessage (Some (lit "   "))]))
             eq_refl).
  reflexivity.
Defined.

(** * Further properties *)

(** ** What the copy action keeps and what it deletes *)

Lemma tag_at_needs_both (s : jsstring) :
  tag_at s = true -> In 60%N s /\ In 62%N s.
Proof.
  destruct s as [|a [|c t]]; try discriminate. unfold tag_at. intros H.
  apply andb_prop in H as [H Ht]. apply andb_prop in H as [Ha _].
  apply N.eqb_eq in Ha as ->. split; [left; reflexivity|].
  apply existsb_exists in Ht as (x & Hx & Hx62). apply N.eqb_eq in Hx62 as <-.
  right. right. exact Hx.
Qed.

Lemma suffix_of_In (x : code_unit) (t s : jsstring) :
  suffix_of t s -> In x t -> In x s.
Proof. intros [pre ->] H. apply in_or_app. right. exact H. Qed.

Lemma free_of_not_In (c : code_unit) (s : jsstring) :
  free_of c s = true <-> ~ In c s.
Proof.
  unfold free_of. rewrite forallb_forall. split.
  - intros H Hin. specialize (H c Hin). rewrite N.eqb_refl in H. discriminate.
  - intros H x Hx. destruct (N.eqb_spec x c) as [->|]; [contradiction|reflexivity].
Qed.

(** Where no tag opens, nothing is deleted. *)
Lemma delete_nothing (s : jsstring) :
  (forall t, suffix_of t s -> tag_at t = false) ->
  delete_from citation_or_tag 0 s = s.
Proof.
  induction s as [|c u IH]; intros H; [reflexivity|].
  cbn [delete_from].
  assert (Hm : match_length citation_or_tag (c :: u) = None).
  { apply match_length_none. apply H. apply suffix_of_refl. }
  unfold jsstring, code_unit in *. rewrite Hm. f_equal. apply IH.
  intros t [pre ->]. apply H. exists (c :: pre). reflexivity.
Qed.

(** A matcher for one code unit of a class, iterated greedily, runs to the
    end of the code units of the class and hands over there. *)
Lemma star_one_run
    (m : jsstring -> (jsstring -> option jsstring) -> option jsstring)
    (f : code_unit -> bool) (k : jsstring -> option jsstring)
    (run : jsstring) (c : code_unit) (rest x : jsstring) :
  (forall s k', m s k' = one f s k') ->
  forallb f run = true ->
  f c = false ->
  k (c :: rest) = Some x ->
  forall fuel, length run <= fuel ->
    star_loop m k fuel (run ++ c :: rest) = Some x.
Proof.
  intros Hm Hrun Hc Hk. induction run as [|a run IH]; intros fuel Hfuel.
  - destruct fuel; cbn [star_loop app]; [exact Hk|].
    rewrite Hm. cbn [one]. rewrite Hc. exact Hk.
  - destruct fuel as [|fuel]; [simpl in Hfuel; lia|].
    cbn [forallb] in Hrun. apply andb_prop in Hrun as [Ha Hrun].
    cbn [star_loop app]. rewrite Hm. cbn [one]. rewrite Ha.
    cbn [length].
    destruct (Nat.ltb_spec (length (run ++ c :: rest))
                           (S (length (run ++ c :: rest)))); [|lia].
    rewrite IH; [reflexivity | exact Hrun | simpl in Hfuel; lia].
Qed.

Lemma lit_match (l t : jsstring) (k : jsstring -> option jsstring) :
  rmatch (RLit l) (l ++ t) k = k t.
Proof.
  induction l as [|c l IH]; cbn [RLit rmatch app one]; [reflexivity|].
  rewrite N.eqb_refl. exact IH.
Qed.

Lemma not_gt_class (x : code_unit) :
  negb (mem x (lit ">")) = negb (x =? 62)%N.
Proof.
  unfold mem. cbn [lit map list_ascii_of_string existsb].
  change (N_of_ascii ">") with 62%N. rewrite orb_false_r. reflexivity.
Qed.

Lemma free_of_gt_class (s : jsstring) :
  forallb (fun x => negb (mem x (lit ">"))) s = free_of 62%N s.
Proof.
  unfold free_of. induction s as [|a s IH]; cbn [forallb]; [reflexivity|].
  rewrite IH, not_gt_class. reflexivity.
Qed.

(** The citation alternative on a citation marker: all of it is the
    match. *)
Lemma citation_matches (attrs digits rest : jsstring) :
  free_of 62%N attrs = true ->
  digits <> [] ->
  forallb is_digit digits = true ->
  rmatch citation_pattern
    (lit "<a " ++ attrs ++ lit "><sup>" ++ digits ++ lit "</sup></a>" ++ rest)
    Some = Some rest.
Proof.
  intros Hattrs Hne Hdigits. unfold citation_pattern, RPlus.
  cbn [rmatch]. rewrite lit_match.
  change (lit "><sup>" ++ digits ++ lit "</sup></a>" ++ rest)
    with (62%N :: lit "<sup>" ++ digits ++ lit "</sup></a>" ++ rest).
  apply (star_one_run (rmatch (RNoneOf (lit ">")))
           (fun x => negb (mem x (lit ">")))).
  - reflexivity.
  - rewrite free_of_gt_class. exact Hattrs.
  - reflexivity.
  - change (62%N :: lit "<sup>" ++ digits ++ lit "</sup></a>" ++ rest)
      with (lit "><sup>" ++ digits ++ lit "</sup></a>" ++ rest).
    rewrite lit_match.
    destruct digits as [|d ds]; [contradiction|].
    cbn [forallb] in Hdigits. apply andb_prop in Hdigits as [Hd Hds].
    cbn [app one]. rewrite Hd.
    change (lit "</sup></a>" ++ rest) with (60%N :: lit "/sup></a>" ++ rest).
    apply (star_one_run (rmatch RDigit) is_digit).
    + reflexivity.
    + exact Hds.
    + reflexivity.
    + change (60%N :: lit "/sup></a>" ++ rest)
        with (lit "</sup></a>" ++ rest).
      apply lit_match.
    + rewrite length_app. apply Nat.le_add_r.
  - rewrite length_app. apply Nat.le_add_r.
Qed.

(** The tag alternative on a tag: all of it is the match. *)
Lemma tag_matches_exact (c : code_unit) (name rest : jsstring) :
  (c =? 62)%N = false ->
  free_of 62%N name = true ->
  rmatch tag_pattern (lit "<" ++ c :: name ++ lit ">" ++ rest) Some
  = Some rest.
Proof.
  intros Hc Hname. unfold tag_pattern, RPlus. cbn [rmatch].
  rewrite lit_match. cbn [one]. rewrite not_gt_class, Hc. cbn [negb].
  change (lit ">" ++ rest) with (62%N :: rest).
  apply (star_one_run (rmatch (RNoneOf (lit ">")))
           (fun x => negb (mem x (lit ">")))).
  - reflexivity.
  - rewrite free_of_gt_class. exact Hname.
  - reflexivity.
  - change (62%N :: rest) with (lit ">" ++ rest). apply lit_match.
  - rewrite length_app. apply Nat.le_add_r.
Qed.

(** The citation alternative needs [a] after the [<]. *)
Lemma citation_needs_a (c : code_unit) (t : jsstring) :
  (c =? 97)%N = false ->
  rmatch citation_pattern (60%N :: c :: t) Some = None.
Proof.
  intros Hc. unfold citation_pattern.
  cbn [rmatch RLit lit map list_ascii_of_string one].
  change (N_of_ascii "<") with 60%N. change (N_of_ascii "a") with 97%N.
  rewrite N.eqb_refl, (N.eqb_sym 97 c), Hc. reflexivity.
Qed.

(** A match at the start is deleted and the search goes on behind it. *)
Lemma replace_match (r : regex) (pre rest : jsstring) :
  pre <> [] ->
  rmatch r (pre ++ rest) Some = Some rest ->
  replace_all_empty r (pre ++ rest) = replace_all_empty r rest.
Proof.
  intros Hne Hm. destruct pre as [|c pre]; [contradiction|].
  unfold replace_all_empty. cbn [app delete_from]. unfold match_length.
  cbn [app] in Hm. rewrite Hm.
  replace (length (c :: pre ++ rest) - length rest) with (S (length pre))
    by (cbn [length]; rewrite length_app; lia).
  rewrite delete_from_skip, skipn_app, skipn_all, Nat.sub_diag.
  reflexivity.
Qed.

(** Text without [<] in front of anything is kept as it is. *)
Lemma replace_keeps_text (txt s : jsstring) :
  free_of 60%N txt = true ->
  replace_all_empty citation_or_tag (txt ++ s)
  = txt ++ replace_all_empty citation_or_tag s.
Proof.
  unfold replace_all_empty, free_of.
  induction txt as [|c txt IH]; intros H; [reflexivity|].
  cbn [forallb] in H. apply andb_prop in H as [Hc H].
  apply negb_true_iff in Hc.
  assert (Hm : match_length citation_or_tag (c :: txt ++ s) = None).
  { apply match_length_none. unfold tag_at.
    destruct (txt ++ s); [reflexivity|]. rewrite Hc. reflexivity. }
  cbn [app delete_from]. unfold jsstring, code_unit in *.
  rewrite Hm, (IH H). reflexivity.
Qed.

Lemma delete_subseq (r : regex) (s : jsstring) :
  forall n, subseq (delete_from r n s) s.
Proof.
  induction s as [|c t IH]; intros n; cbn [delete_from]; [constructor|].
  destruct n as [|n]; [|apply subseq_drop, IH].
  destruct (match_length r (c :: t)) as [[|m]|];
    [apply subseq_keep | apply subseq_drop | apply subseq_keep]; apply IH.
Qed.

Lemma subseq_length (a b : jsstring) : subseq a b -> length a <= length b.
Proof. induction 1; simpl; lia. Qed.

Lemma subseq_In (a b : jsstring) (x : code_unit) :
  subseq a b -> In x a -> In x b.
Proof.
  induction 1 as [|c a b _ IH|c a b _ IH]; intros Hin.
  - exact Hin.
  - destruct Hin as [->|Hin]; [left; reflexivity | right; apply IH, Hin].
  - right. apply IH, Hin.
Qed.

Section CopyText.

Variable sanitize : jsstring -> jsstring.

(** X1: what is copied is the sanitized HTML with code units left out and
    nothing else: nothing is added, nothing is reordered, and the copy is
    never longer than the HTML. *)
Theorem X1_copy_only_leaves_out (p : Props) :
  subseq (textToCopy sanitize p) (sanitizedAnswerHtml sanitize p) /\
  length (textToCopy sanitize p) <= length (sanitizedAnswerHtml sanitize p) /\
  (forall x, In x (textToCopy sanitize p) ->
             In x (sanitizedAnswerHtml sanitize p)).
Proof.
  assert (H : subseq (textToCopy sanitize p) (sanitizedAnswerHtml sanitize p)).
  { apply delete_subseq. }
  split; [exact H|]. split; [apply subseq_length; exact H|].
  intros x. apply subseq_In. exact H.
Qed.

(** X2: sanitized HTML that has no [<] in it, or no [>], is copied as it
    is; an opening angle bracket that is never closed is not taken for a
    tag. *)
Theorem X2_copy_plain_text_unchanged (p : Props) :
  free_of 60%N (sanitizedAnswerHtml sanitize p) = true \/
  free_of 62%N (sanitizedAnswerHtml sanitize p) = true ->
  textToCopy sanitize p = sanitizedAnswerHtml sanitize p.
Proof.
  intros H. unfold textToCopy, replace_all_empty. apply delete_nothing.
  intros t Ht. destruct (tag_at t) eqn:Htag; [|reflexivity].
  apply tag_at_needs_both in Htag as [Hlt Hgt].
  destruct H as [H|H]; apply free_of_not_In in H; exfalso; apply H;
    eapply suffix_of_In; eassumption.
Qed.

End CopyText.

(** X3: deleting the matches a second time changes nothing: what one
    replacement leaves has no match in it. *)
Theorem X3_replace_idempotent (s : jsstring) :
  replace_all_empty citation_or_tag (replace_all_empty citation_or_tag s)
  = replace_all_empty citation_or_tag s.
Proof.
  unfold replace_all_empty at 1. apply delete_nothing.
  intros t Ht. apply (delete_clean (length s) s (le_n _) t Ht).
Qed.

(** X4: a citation marker, an [a] element with any attributes around a
    [sup] element of digits, is deleted with its number; the text in front
    of it stays and the replacement goes on behind it. *)
Theorem X4_citation_marker_deleted_whole
    (txt attrs digits rest : jsstring) :
  free_of 60%N txt = true ->
  free_of 62%N attrs = true ->
  digits <> [] ->
  forallb is_digit digits = true ->
  replace_all_empty citation_or_tag
    (txt ++ lit "<a " ++ attrs ++ lit "><sup>" ++ digits
         ++ lit "</sup></a>" ++ rest)
  = txt ++ replace_all_empty citation_or_tag rest.
Proof.
  intros Htxt Hattrs Hne Hdigits. rewrite replace_keeps_text by exact Htxt.
  f_equal.
  replace (lit "<a " ++ attrs ++ lit "><sup>" ++ digits
             ++ lit "</sup></a>" ++ rest)
    with ((lit "<a " ++ attrs ++ lit "><sup>" ++ digits ++ lit "</sup></a>")
            ++ rest)
    by (repeat rewrite <- app_assoc; reflexivity).
  apply replace_match; [discriminate|].
  repeat rewrite <- app_assoc. unfold citation_or_tag. cbn [rmatch].
  rewrite (citation_matches attrs digits rest Hattrs Hne Hdigits).
  reflexivity.
Qed.

(** X5: any other tag, from [<] to the first [>] after it, is deleted and
    what it encloses stays: the text in front of the tag is kept and the
    replacement goes on right behind the [>].  (A tag whose name starts
    with [a] may be the start of a citation marker and is left out
    here.) *)
Theorem X5_tag_deleted_content_kept
    (txt : jsstring) (c : code_unit) (name rest : jsstring) :
  free_of 60%N txt = true ->
  (c =? 62)%N = false ->
  (c =? 97)%N = false ->
  free_of 62%N name = true ->
  replace_all_empty citation_or_tag
    (txt ++ lit "<" ++ c :: name ++ lit ">" ++ rest)
  = txt ++ replace_all_empty citation_or_tag rest.
Proof.
  intros Htxt Hc Ha Hname. rewrite replace_keeps_text by exact Htxt.
  f_equal.
  replace (lit "<" ++ c :: name ++ lit ">" ++ rest)
    with ((lit "<" ++ c :: name ++ lit ">") ++ rest)
    by (cbn [lit map list_ascii_of_string app]; rewrite <- app_assoc;
        reflexivity).
  apply replace_match; [discriminate|].
  replace ((lit "<" ++ c :: name ++ lit ">") ++ rest)
    with (lit "<" ++ c :: name ++ lit ">" ++ rest)
    by (cbn [lit map list_ascii_of_string app]; rewrite <- app_assoc;
        reflexivity).
  unfold citation_or_tag. cbn [rmatch].
  change (lit "<" ++ c :: name ++ lit ">" ++ rest)
    with (60%N :: c :: name ++ lit ">" ++ rest) at 1.
  rewrite (citation_needs_a c _ Ha). cbn [orelse].
  apply tag_matches_exact; assumption.
Qed.

(** ** What the component calls, and when *)

Section Calls.

Variable sanitize : jsstring -> jsstring.
Variable getCitationFilePath : jsstring -> jsstring.

Local Abbreviation step := (step sanitize getCitationFilePath).
Local Abbreviation run := (run sanitize getCitationFilePath).
Local Abbreviation render := (render sanitize getCitationFilePath).
Local Abbreviation justified := (justified sanitize getCitationFilePath).

Lemma citation_anchor_inv (p : Props) (r : State) (i : nat) (a : Anchor) :
  anchorAt (citationList (render p r)) i = Some a ->
  exists c, nth_error (citations p) i = Some c /\
            onClick a = CitationClicked (getCitationFilePath c).
Proof.
  unfold render; simpl. destruct (negb _); simpl; [|discriminate].
  rewrite mapi_nth. destruct (nth_error (citations p) i) as [c|]; simpl;
    [|discriminate].
  intros H. injection H as <-. exists c. split; reflexivity.
Qed.

Lemma followup_anchor_inv (p : Props) (r : State) (i : nat) (a : Anchor) :
  anchorAt (followupList (render p r)) i = Some a ->
  exists qs q,
    followup_questions p = Some qs /\ nth_error qs i = Some q /\
    showFollowupQuestions p = Some true /\
    onFollowupQuestionClicked p = true /\
    onClick a = FollowupQuestionClicked q.
Proof.
  unfold render; simpl.
  destruct (followup_questions p) as [qs|]; [|discriminate].
  destruct (negb (length qs =? 0)); simpl; [|discriminate].
  destruct (showFollowupQuestions p) as [[|]|]; simpl; try discriminate.
  destruct (onFollowupQuestionClicked p); simpl; [|discriminate].
  rewrite mapi_nth. destruct (nth_error qs i) as [q|] eqn:Hq; simpl;
    [|discriminate].
  intros H. injection H as <-. exists qs, q. repeat split. exact Hq.
Qed.

(** One event adds at most one effect, and the effect it adds is
    justified by it. *)
Lemma step_justified (p : Props) (w : World) (e : Event) :
  exists l,
    effects (step p w e) = effects w ++ l /\
    length l <= 1 /\
    forall x, In x l -> justified p w e x.
Proof.
  assert (Hnone : forall w', effects w' = effects w ->
            exists l, effects w' = effects w ++ l /\ length l <= 1 /\
                      forall x, In x l -> justified p w e x).
  { intros w' H. exists []. rewrite app_nil_r.
    split; [exact H|]. split; [simpl; lia|]. intros x []. }
  assert (Hone : forall w' y, effects w' = effects w ++ [y] ->
            justified p w e y ->
            exists l, effects w' = effects w ++ l /\ length l <= 1 /\
                      forall x, In x l -> justified p w e x).
  { intros w' y H Hy. exists [y]. split; [exact H|]. split; [simpl; lia|].
    intros x [<-|[]]. exact Hy. }
  destruct e.
  - eapply Hone; [reflexivity | split; reflexivity].
  - apply Hnone. reflexivity.
  - eapply Hone; [reflexivity | split; reflexivity].
  - apply Hnone. unfold step, exec, dispatch, elapse.
    match goal with
    | |- context [fire ?ts ?t ?w0] =>
        destruct (fire_frame ts t w0) as (_ & _ & _ & D)
    end.
    exact D.
  - eapply Hone; [reflexivity | reflexivity].
  - eapply Hone; [reflexivity | reflexivity].
  - unfold step, exec, dispatch, handleFeedback.
    destruct (onFeedbackProvided p) eqn:Hcb.
    + eapply Hone; [reflexivity | repeat split; exact Hcb].
    + apply Hnone. reflexivity.
  - unfold step, exec, dispatch, handleFeedback.
    destruct (onFeedbackProvided p); apply Hnone; reflexivity.
  - unfold step, exec, dispatch.
    destruct (anchorAt (citationList (render p (ui w))) i) as [a|] eqn:Ha.
    + eapply Hone; [reflexivity|].
      apply citation_anchor_inv in Ha as (c & Hc & ->).
      exists i, c. repeat split. exact Hc.
    + apply Hnone. reflexivity.
  - unfold step, exec, dispatch.
    destruct (anchorAt (followupList (render p (ui w))) i) as [a|] eqn:Ha.
    + eapply Hone; [reflexivity|].
      apply followup_anchor_inv in Ha as (qs & q & Hqs & Hq & Hs & Hh & ->).
      exists i, qs. repeat split; assumption.
    + apply Hnone. reflexivity.
  - apply Hnone. reflexivity.
  - unfold step, exec, dispatch, handleFeedbackSubmit.
    destruct (onFeedbackProvided p) eqn:Hcb.
    + eapply Hone; [reflexivity | repeat split; exact Hcb].
    + apply Hnone. reflexivity.
  - apply Hnone. reflexivity.
  - apply Hnone. reflexivity.
Qed.

(** Every effect of a run is there from the start or is justified by an
    event of the run. *)
Lemma run_justified (p : Props) (es : list Event) :
  forall w x,
    In x (effects (run p w es)) ->
    In x (effects w) \/
    exists w' e, In e es /\ justified p w' e x.
Proof.
  induction es as [|e es IH]; intros w x Hin; [left; exact Hin|].
  unfold run in *. cbn [fold_left] in Hin.
  apply IH in Hin as [Hin|(w' & e' & He' & Hj)].
  - destruct (step_justified p w e) as (l & Hl & _ & Hj).
    rewrite Hl in Hin. apply in_app_or in Hin as [Hin|Hin].
    + left. exact Hin.
    + right. exists w, e. split; [left; reflexivity | apply Hj, Hin].
  - right. exists w', e'. split; [right; exact He' | exact Hj].
Qed.

Lemma no_callback_step (p : Props) (w : World) (e : Event) :
  onFeedbackProvided p = false ->
  feedbackState (ui (step p w e)) = feedbackState (ui w) /\
  (isFeedbackDialogOpen (ui w) = false ->
   isFeedbackDialogOpen (ui (step p w e)) = false).
Proof.
  intros Hcb. pose proof (step_frame sanitize getCitationFilePath p w e) as Hf.
  destruct e;
    try (split; [exact (proj1 Hf) | rewrite (proj2 Hf); trivial]);
    unfold step, exec, dispatch, handleFeedback, handleFeedbackSubmit;
    rewrite ?Hcb; split; auto.
Qed.

(** X6: without a feedback callback the feedback part of the component
    is inert, whatever is done to it: the feedback state stays Neutral,
    the dialog never opens, the like and dislike buttons are not in the
    view, and no feedback is ever reported. *)
Theorem X6_no_callback_feedback_inert (p : Props) (es : list Event) :
  onFeedbackProvided p = false ->
  feedbackState (ui (run p initialWorld es)) = Neutral /\
  isFeedbackDialogOpen (ui (run p initialWorld es)) = false /\
  feedbackButtons (render p (ui (run p initialWorld es))) = None /\
  (forall f m, ~ In (FeedbackProvided f m) (effects (run p initialWorld es))).
Proof.
  intros Hcb.
  assert (Hst : forall es w,
            feedbackState (ui w) = Neutral ->
            isFeedbackDialogOpen (ui w) = false ->
            feedbackState (ui (run p w es)) = Neutral /\
            isFeedbackDialogOpen (ui (run p w es)) = false).
  { clear es. induction es as [|e es IH]; intros w Hn Ho; [split; assumption|].
    unfold run in *. cbn [fold_left].
    destruct (no_callback_step p w e Hcb) as [Hs Hc].
    apply IH; [rewrite Hs; exact Hn | apply Hc; exact Ho]. }
  destruct (Hst es initialWorld eq_refl eq_refl) as [Hn Ho].
  split; [exact Hn|]. split; [exact Ho|]. split.
  - unfold render; simpl. rewrite Hcb. reflexivity.
  - intros f m Hin.
    apply run_justified in Hin as [[]|(w' & e & _ & Hj)].
    destruct m; simpl in Hj; destruct Hj as [Hj _]; congruence.
Qed.

(** X7: whatever is done to the component, Negative feedback is only
    ever reported together with a message, and Positive and Neutral
    feedback only without one; and nothing is reported unless a callback
    was supplied. *)
Theorem X7_feedback_report_shape
    (p : Props) (es : list Event) (f : Feedback) (m : option jsstring) :
  In (FeedbackProvided f m) (effects (run p initialWorld es)) ->
  onFeedbackProvided p = true /\
  match m with
  | Some _ => f = Negative
  | None => f = Positive \/ f = Neutral
  end.
Proof.
  intros Hin. apply run_justified in Hin as [[]|(w' & e & _ & Hj)].
  destruct m; simpl in Hj.
  - destruct Hj as (Hcb & _ & Hf & _). split; assumption.
  - destruct Hj as (Hcb & _ & Hf). split; [exact Hcb|].
    rewrite Hf. destruct (Feedback_eqb _ _); [right | left]; reflexivity.
Qed.

(** X8: whatever is done to the component, the citation handler is only
    ever called with the path of a citation of the answer, and the
    follow-up handler only with one of the follow-up questions of the
    answer, and then only if the show flag is true and the handler was
    supplied. *)
Theorem X8_click_handlers_get_answer_data
    (p : Props) (es : list Event) (x : Effect) :
  In x (effects (run p initialWorld es)) ->
  match x with
  | CitationClicked path =>
      exists c, In c (citations p) /\ path = getCitationFilePath c
  | FollowupQuestionClicked q =>
      exists qs, followup_questions p = Some qs /\ In q qs /\
                 showFollowupQuestions p = Some true /\
                 onFollowupQuestionClicked p = true
  | _ => True
  end.
Proof.
  intros Hin. apply run_justified in Hin as [[]|(w' & e & _ & Hj)].
  destruct x; try exact I; simpl in Hj.
  - destruct Hj as (i & c & _ & Hc & ->).
    exists c. split; [eapply nth_error_In; exact Hc | reflexivity].
  - destruct Hj as (i & qs & _ & Hqs & Hq & Hs & Hh).
    exists qs. repeat split; trivial. eapply nth_error_In; exact Hq.
Qed.

(** X9: a disabled button does nothing: in every history whose events
    were possible when they happened, the thought-process handler has been
    called only if the answer has thoughts, and the supporting-content
    handler only if it has data points. *)
Theorem X9_disabled_buttons_never_fire
    (p : Props) (es : list Event) (w : World) :
  trace sanitize getCitationFilePath
    (enabled sanitize getCitationFilePath) p es w ->
  (In ThoughtProcessClicked (effects w) ->
   exists n, thoughts_length p = Some (S n)) /\
  (In SupportingContentClicked (effects w) -> data_points p = true).
Proof.
  induction 1 as [|es w e Htr [IH1 IH2] Hok].
  - split; intros [].
  - destruct (step_justified p w e) as (l & Hl & _ & Hj). rewrite Hl.
    split; intros Hin; apply in_app_or in Hin as [Hin|Hin]; auto;
      apply Hj in Hin; simpl in Hin; subst e;
      unfold enabled, render in Hok; simpl in Hok.
    + destruct (thoughts_length p) as [[|n]|]; try discriminate. eauto.
    + apply negb_true_iff in Hok. apply negb_false_iff in Hok. exact Hok.
Qed.

End Calls.

(** ** Feedback, composed *)

Section FeedbackComposed.

Variable sanitize : jsstring -> jsstring.
Variable getCitationFilePath : jsstring -> jsstring.

Local Abbreviation step := (step sanitize getCitationFilePath).
Local Abbreviation run := (run sanitize getCitationFilePath).
Local Abbreviation render := (render sanitize getCitationFilePath).
Local Abbreviation justified := (justified sanitize getCitationFilePath).

Lemma run_snoc (p : Props) (w : World) (es : list Event) (e : Event) :
  run p w (es ++ [e]) = step p (run p w es) e.
Proof. unfold run. rewrite fold_left_app. reflexivity. Qed.

Lemma like_state_next (s0 : Feedback) (k : nat) :
  (if Feedback_eqb (like_state s0 k) Positive then Neutral else Positive)
  = like_state s0 (S k).
Proof.
  destruct k as [|k].
  - destruct s0; reflexivity.
  - unfold like_state. change (Nat.odd (S (S k))) with (Nat.odd k).
    rewrite Nat.odd_succ, <- Nat.negb_odd.
    destruct (Nat.odd k), (Feedback_eqb s0 Positive); reflexivity.
Qed.

(** X10: with a feedback callback supplied, any number of selections of
    Positive in a row toggles between Positive and Neutral: from a state
    other than Positive the odd selections give Positive and the even ones
    Neutral, from Positive the other way round, and each selection reports
    the state it has just set, once and without a message. *)
Theorem X10_positive_toggles (p : Props) (w : World) (n : nat) :
  onFeedbackProvided p = true ->
  feedbackState (ui (run p w (repeat ClickLike n)))
    = like_state (feedbackState (ui w)) n /\
  effects (run p w (repeat ClickLike n))
    = effects w ++
      map (fun k => FeedbackProvided (like_state (feedbackState (ui w)) k) None)
          (seq 1 n).
Proof.
  intros Hcb. induction n as [|n [IHs IHe]].
  - split; [reflexivity | symmetry; apply app_nil_r].
  - replace (repeat ClickLike (S n)) with (repeat ClickLike n ++ [ClickLike])
      by (symmetry; apply repeat_cons).
    rewrite run_snoc, (step_like sanitize getCitationFilePath p _ Hcb).
    cbn [ui feedbackState effects]. rewrite IHs, IHe, like_state_next.
    split; [reflexivity|].
    rewrite seq_S, map_app, <- app_assoc. reflexivity.
Qed.

(** X11: closing the dialog without a submit keeps the draft: after a
    cancel or a dismissal and a new Negative selection the text field
    shows the message as it was left.  After a submit the draft is gone:
    the text field is empty and the submit button is disabled. *)
Theorem X11_cancel_keeps_draft_submit_clears
    (p : Props) (w : World) (e : Event) :
  onFeedbackProvided p = true ->
  e = ClickCancel \/ e = DismissDialog ->
  (isFeedbackDialogOpen (ui (run p w [e; ClickDislike])) = true /\
   textFieldValue (render p (ui (run p w [e; ClickDislike])))
     = feedbackMessage (ui w)) /\
  (isFeedbackDialogOpen (ui (run p w [ClickSubmit; ClickDislike])) = true /\
   textFieldValue (render p (ui (run p w [ClickSubmit; ClickDislike])))
     = lit "" /\
   submitDisabled (render p (ui (run p w [ClickSubmit; ClickDislike])))
     = true).
Proof.
  intros Hcb He. unfold run. cbn [fold_left].
  assert (Hclose : step p w e = step p w ClickCancel).
  { destruct He; subst e; reflexivity. }
  rewrite Hclose.
  rewrite (step_dislike sanitize getCitationFilePath p _ Hcb).
  rewrite (step_dislike sanitize getCitationFilePath p _ Hcb).
  rewrite (step_submit sanitize getCitationFilePath p w Hcb).
  repeat split.
Qed.

End FeedbackComposed.

(** ** The copied flag over time *)

Section CopiedFlag.

Variable sanitize : jsstring -> jsstring.
Variable getCitationFilePath : jsstring -> jsstring.

Local Abbreviation step := (step sanitize getCitationFilePath).
Local Abbreviation run := (run sanitize getCitationFilePath).

(** Only a fulfilled write and the passing of time touch the copied flag,
    the timers and the clock. *)
Lemma step_clock_frame (p : Props) (w : World) (e : Event) :
  match e with
  | ClipboardFulfilled | Elapse _ => True
  | _ =>
      copied (ui (step p w e)) = copied (ui w) /\
      timers (step p w e) = timers w /\
      now (step p w e) = now w
  end.
Proof.
  destruct e; try exact I; try (repeat split; reflexivity);
    unfold step, exec, dispatch, handleFeedback, handleFeedbackSubmit,
      clickAnchor.
  - destruct (onFeedbackProvided p); repeat split.
  - destruct (onFeedbackProvided p); repeat split.
  - destruct (anchorAt _ i); repeat split.
  - destruct (anchorAt _ i); repeat split.
  - destruct (onFeedbackProvided p); repeat split.
Qed.

Lemma timely_step (p : Props) (w : World) (e : Event) :
  timely w -> timely (step p w e).
Proof.
  intros [Hfuture Hup].
  pose proof (step_clock_frame p w e) as Hf.
  destruct e;
    try (destruct Hf as (Hc & Ht & Hn); unfold timely;
         rewrite Hc, Ht, Hn; split; assumption).
  - (* a write is fulfilled: the flag goes up with a timer of its own *)
    rewrite (step_fulfilled sanitize getCitationFilePath). unfold timely.
    cbn [ui copied timers now]. split.
    + intros T HT. apply in_app_or in HT as [HT|[<-|[]]].
      * apply Hfuture, HT.
      * cbn [due]. lia.
    + intros _. eexists. split.
      * apply in_or_app. right. left. reflexivity.
      * cbn [due]. lia.
  - (* time passes *)
    destruct (step_elapse sanitize getCitationFilePath p w ms) as (A & B & C).
    unfold timely. rewrite A, B, C. split.
    + intros T HT. apply filter_In in HT as [_ HT].
      apply negb_true_iff, N.leb_gt in HT. exact HT.
    + destruct (existsb _ (timers w)) eqn:Hfired; [discriminate|].
      intros Hc. destruct (Hup Hc) as (T & HT & Hdue).
      exists T. split; [|lia].
      apply filter_In. split; [exact HT|].
      apply negb_true_iff.
      destruct (due T <=? now w + ms)%N eqn:HdT; [|reflexivity].
      assert (existsb (fun x => due x <=? now w + ms)%N (timers w) = true).
      { apply existsb_exists. exists T. split; assumption. }
      congruence.
Qed.

Lemma timely_run (p : Props) (es : list Event) :
  forall w, timely w -> timely (run p w es).
Proof.
  induction es as [|e es IH]; intros w Hw; [exact Hw|].
  unfold run in *. cbn [fold_left]. apply IH, timely_step, Hw.
Qed.

Lemma timely_initial : timely initialWorld.
Proof. split; [intros T [] | discriminate]. Qed.

(** X13: the copied flag never sticks.  Whatever has been done to the
    component, and however many copies are in flight or confirmed, once
    2000 ms pass with nothing but time passing the flag is down. *)
Theorem X13_copied_flag_never_sticks
    (p : Props) (es : list Event) (ds : list N) :
  (2000 <= total ds)%N ->
  copied (ui (run p (run p initialWorld es) (map Elapse ds))) = false.
Proof.
  intros Hlong.
  destruct (timely_run p es initialWorld timely_initial) as [Hfuture Hup].
  destruct (copied (ui (run p initialWorld es))) eqn:Hc.
  - destruct (Hup eq_refl) as (T & HT & Hdue).
    apply (elapse_clears sanitize getCitationFilePath p T);
      [exact HT | apply Hfuture, HT | lia].
  - apply elapse_keeps_false. exact Hc.
Qed.

(** While the flag is up, it comes down exactly when the earliest timer
    is due. *)
Lemma elapse_until_first (p : Props) (T : Timer) (ds : list N) :
  forall w,
    copied (ui w) = true ->
    In T (timers w) ->
    (forall T', In T' (timers w) -> (due T <= due T')%N) ->
    (now w < due T)%N ->
    copied (ui (run p w (map Elapse ds))) = (now w + total ds <? due T)%N.
Proof.
  induction ds as [|d ds IH]; intros w Hc HT Hmin Hnow.
  - cbn [map total fold_right]. unfold run. cbn [fold_left].
    rewrite N.add_0_r, Hc. symmetry. apply N.ltb_lt. exact Hnow.
  - unfold run in *. cbn [map fold_left total fold_right]. fold (total ds).
    destruct (step_elapse sanitize getCitationFilePath p w d) as (A & B & C).
    destruct (N.leb_spec (due T) (now w + d)) as [Hfire|Hwait].
    + assert (Hex : existsb (fun x => due x <=? now w + d)%N (timers w) = true).
      { apply existsb_exists. exists T. split; [exact HT|].
        apply N.leb_le. exact Hfire. }
      rewrite Hex in A.
      pose proof (elapse_keeps_false sanitize getCitationFilePath p ds _ A)
        as Hkeep.
      unfold run in Hkeep. rewrite Hkeep. symmetry. apply N.ltb_ge. lia.
    + assert (Hex : existsb (fun x => due x <=? now w + d)%N (timers w) = false).
      { destruct (existsb _ (timers w)) eqn:Hex; [|reflexivity].
        apply existsb_exists in Hex as (T' & HT' & Hdue').
        apply N.leb_le in Hdue'. specialize (Hmin T' HT'). lia. }
      rewrite Hex in A.
      assert (Hkept : forall T', In T' (timers w) ->
                In T' (timers (step p w (Elapse d)))).
      { intros T' HT'. rewrite B. apply filter_In. split; [exact HT'|].
        apply negb_true_iff, N.leb_gt. specialize (Hmin T' HT'). lia. }
      rewrite IH.
      * rewrite C, N.add_assoc. reflexivity.
      * rewrite A. exact Hc.
      * apply Hkept, HT.
      * intros T' HT'. rewrite B in HT'. apply filter_In in HT' as [HT' _].
        apply Hmin, HT'.
      * rewrite C. exact Hwait.
Qed.

(** X14: a second copy does not prolong the confirmation.  When a copy
    is confirmed and a second copy succeeds less than 2000 ms later, the
    flag comes down 2000 ms after the first success, not after the
    second. *)
Theorem X14_second_copy_does_not_prolong
    (p : Props) (w : World) (d1 : N) (ds : list N) :
  timers w = [] ->
  (d1 < 2000)%N ->
  copied (ui (run p w [ClickCopy; ClipboardFulfilled; Elapse d1;
                       ClickCopy; ClipboardFulfilled])) = true /\
  copied (ui (run p (run p w [ClickCopy; ClipboardFulfilled; Elapse d1;
                              ClickCopy; ClipboardFulfilled])
                (map Elapse ds)))
    = (d1 + total ds <? 2000)%N.
Proof.
  intros Ht Hd1.
  set (T1 := {| due := (now w + 2000)%N; callback := ClearCopied |}).
  set (w2 := step p (step p w ClickCopy) ClipboardFulfilled).
  assert (H2 : timers w2 = [T1] /\ now w2 = now w /\ copied (ui w2) = true).
  { subst w2. rewrite (step_fulfilled sanitize getCitationFilePath),
      (step_copy sanitize getCitationFilePath).
    cbn [timers now ui copied]. rewrite Ht. repeat split. }
  destruct H2 as (Ht2 & Hn2 & Hc2).
  set (w3 := step p w2 (Elapse d1)).
  assert (H3 : timers w3 = [T1] /\ now w3 = (now w + d1)%N /\
               copied (ui w3) = true).
  { subst w3.
    destruct (step_elapse sanitize getCitationFilePath p w2 d1) as (A & B & C).
    rewrite A, B, C, Ht2, Hn2, Hc2. cbn [existsb filter due T1].
    assert (Hnot : (now w + 2000 <=? now w + d1)%N = false)
      by (apply N.leb_gt; lia).
    rewrite Hnot. repeat split. }
  destruct H3 as (Ht3 & Hn3 & Hc3).
  set (w5 := step p (step p w3 ClickCopy) ClipboardFulfilled).
  assert (H5 : timers w5 = [T1; {| due := (now w + d1 + 2000)%N;
                                   callback := ClearCopied |}] /\
               now w5 = (now w + d1)%N /\ copied (ui w5) = true).
  { subst w5. rewrite (step_fulfilled sanitize getCitationFilePath),
      (step_copy sanitize getCitationFilePath).
    cbn [timers now ui copied]. rewrite Ht3, Hn3. repeat split. }
  destruct H5 as (Ht5 & Hn5 & Hc5).
  change (run p w [ClickCopy; ClipboardFulfilled; Elapse d1;
                   ClickCopy; ClipboardFulfilled]) with w5.
  split; [exact Hc5|].
  rewrite (elapse_until_first p T1 ds w5 Hc5).
  - rewrite Hn5. cbn [due T1].
    destruct (N.ltb_spec (d1 + total ds) 2000);
      [apply N.ltb_lt | apply N.ltb_ge]; lia.
  - rewrite Ht5. left. reflexivity.
  - intros T' HT'. rewrite Ht5 in HT'.
    destruct HT' as [<-|[<-|[]]]; cbn [due T1]; lia.
  - rewrite Hn5. cbn [due T1]. lia.
Qed.

End CopiedFlag.

(** ** What the caller knows *)

Section Reports.

Variable sanitize : jsstring -> jsstring.
Variable getCitationFilePath : jsstring -> jsstring.

Local Abbreviation step := (step sanitize getCitationFilePath).
Local Abbreviation run := (run sanitize getCitationFilePath).
Local Abbreviation render := (render sanitize getCitationFilePath).
Local Abbreviation justified := (justified sanitize getCitationFilePath).

Lemma typed_message (p : Props) (w : World) (m : jsstring) :
  m <> [] ->
  step p w (ChangeMessage (Some m)) =
  {| ui := {| copied := copied (ui w); feedbackState := feedbackState (ui w);
              isFeedbackDialogOpen := isFeedbackDialogOpen (ui w);
              feedbackMessage := m |};
     effects := effects w; now := now w; timers := timers w;
     pendingWrites := pendingWrites w |}.
Proof. destruct m; [contradiction | reflexivity]. Qed.

(** X15: what is reported with Negative feedback is the text typed last,
    as it was typed: a submit after any typing that ends with a non-empty
    text [m] calls the callback once, with Negative and [m] itself, white
    space at its ends included; and the submit is possible exactly when
    [m] is not blank. *)
Theorem X15_last_typed_message_sent_verbatim
    (p : Props) (w : World) (vs : list (option jsstring)) (m : jsstring) :
  onFeedbackProvided p = true ->
  m <> [] ->
  effects (run p w (ClickDislike :: map ChangeMessage vs
                      ++ [ChangeMessage (Some m); ClickSubmit]))
    = effects w ++ [FeedbackProvided Negative (Some m)] /\
  enabled sanitize getCitationFilePath p
    (run p w (ClickDislike :: map ChangeMessage vs
                ++ [ChangeMessage (Some m)])) ClickSubmit
    = negb (blank m).
Proof.
  intros Hcb Hm.
  destruct (run_changes sanitize getCitationFilePath p vs
              (step p w ClickDislike)) as (He & _ & Ho).
  rewrite (step_dislike sanitize getCitationFilePath p w Hcb) in He at 2.
  rewrite (step_dislike sanitize getCitationFilePath p w Hcb) in Ho at 2.
  cbn [effects ui isFeedbackDialogOpen] in He, Ho.
  unfold run in *. cbn [fold_left]. rewrite !fold_left_app. cbn [fold_left].
  set (w1 := fold_left (step p) (map ChangeMessage vs)
               (step p w ClickDislike)) in *.
  rewrite (typed_message p w1 m Hm). split.
  - rewrite (step_submit sanitize getCitationFilePath p _ Hcb).
    cbn [effects ui feedbackMessage]. rewrite He. reflexivity.
  - unfold enabled, render.
    cbn [submitDisabled ui feedbackMessage].
    rewrite truthy_trim, negb_involutive. reflexivity.
Qed.

End Reports.

(** ** The further properties on examples *)

(** A comparison in plain text is copied as it stands. *)
Lemma X2_witness :
  free_of 62%N (sanitizedAnswerHtml demoSanitize demoPlain) = true /\
  textToCopy demoSanitize demoPlain = lit "if a < b then stop".
Proof.
  split; [reflexivity|].
  exact (X2_copy_plain_text_unchanged demoSanitize demoPlain
           (or_intror eq_refl)).
Defined.

(** A citation marker in the middle of a sentence goes with its number. *)
Lemma X4_witness :
  free_of 60%N (lit "See ") = true /\
  free_of 62%N (lit "href=x") = true /\
  forallb is_digit (lit "12") = true /\
  replace_all_empty citation_or_tag
    (lit "See <a href=x><sup>12</sup></a> and <b>more</b>")
  = lit "See  and more".
Proof.
  split; [reflexivity|]. split; [reflexivity|]. split; [reflexivity|].
  apply (X4_citation_marker_deleted_whole (lit "See ") (lit "href=x")
           (lit "12") (lit " and <b>more</b>"));
    [reflexivity | reflexivity | discriminate | reflexivity].
Defined.

(** A [b] element loses its tags and keeps its text. *)
Lemma X5_witness :
  free_of 60%N (lit "Hello ") = true /\
  replace_all_empty citation_or_tag (lit "Hello <b>world</b>")
  = lit "Hello world".
Proof.
  split; [reflexivity|].
  exact (X5_tag_deleted_content_kept (lit "Hello ") 98%N [] (lit "world</b>")
           eq_refl eq_refl eq_refl eq_refl).
Defined.

(** Without a callback, clicks that would select and submit do nothing. *)
Lemma X6_witness :
  onFeedbackProvided demoNoCallback = false /\
  feedbackState
    (ui (run demoSanitize demoPath demoNoCallback initialWorld
           [ClickDislike; ClickLike; ClickSubmit])) = Neutral /\
  isFeedbackDialogOpen
    (ui (run demoSanitize demoPath demoNoCallback initialWorld
           [ClickDislike; ClickLike; ClickSubmit])) = false.
Proof.
  destruct (X6_no_callback_feedback_inert demoSanitize demoPath
              demoNoCallback [ClickDislike; ClickLike; ClickSubmit] eq_refl)
    as (Hn & Ho & _).
  split; [reflexivity|]. split; [exact Hn | exact Ho].
Defined.

(** A submitted message is reported with Negative. *)
Lemma X7_witness :
  In (FeedbackProvided Negative (Some (lit "too slow")))
    (effects (demoRun [ClickLike; ClickDislike;
                       ChangeMessage (Some (lit "too slow")); ClickSubmit])) /\
  onFeedbackProvided demoProps = true.
Proof.
  assert (Hin : In (FeedbackProvided Negative (Some (lit "too slow")))
                  (effects (demoRun [ClickLike; ClickDislike;
                                     ChangeMessage (Some (lit "too slow"));
                                     ClickSubmit]))).
  { right. left. reflexivity. }
  split; [exact Hin|].
  exact (proj1 (X7_feedback_report_shape demoSanitize demoPath demoProps
                  _ _ _ Hin)).
Defined.

(** The second citation link calls the handler with the path of the
    second citation. *)
Lemma X8_witness :
  In (CitationClicked (lit "/content/b.pdf"))
    (effects (demoRun [ClickCitation 1; ClickFollowup 0])) /\
  exists c, In c (citations demoProps) /\ lit "/content/b.pdf" = demoPath c.
Proof.
  assert (Hin : In (CitationClicked (lit "/content/b.pdf"))
                  (effects (demoRun [ClickCitation 1; ClickFollowup 0]))).
  { left. reflexivity. }
  split; [exact Hin|].
  exact (X8_click_handlers_get_answer_data demoSanitize demoPath demoProps
           _ _ Hin).
Defined.

(** The example answer has thoughts, and its button works. *)
Lemma X9_witness :
  trace demoSanitize demoPath (enabled demoSanitize demoPath) demoProps
    [ClickThoughtProcess] (demoRun [ClickThoughtProcess]) /\
  In ThoughtProcessClicked (effects (demoRun [ClickThoughtProcess])) /\
  exists n, thoughts_length demoProps = Some (S n).
Proof.
  assert (Htr : trace demoSanitize demoPath (enabled demoSanitize demoPath)
                  demoProps [ClickThoughtProcess]
                  (demoRun [ClickThoughtProcess])).
  { apply trace_run. reflexivity. }
  assert (Hin : In ThoughtProcessClicked
                  (effects (demoRun [ClickThoughtProcess]))).
  { left. reflexivity. }
  split; [exact Htr|]. split; [exact Hin|].
  exact (proj1 (X9_disabled_buttons_never_fire demoSanitize demoPath
                  demoProps _ _ Htr) Hin).
Defined.

(** Three Positive selections on the fresh component. *)
Lemma X10_witness :
  onFeedbackProvided demoProps = true /\
  feedbackState (ui (demoRun [ClickLike; ClickLike; ClickLike])) = Positive /\
  effects (demoRun [ClickLike; ClickLike; ClickLike])
    = [FeedbackProvided Positive None; FeedbackProvided Neutral None;
       FeedbackProvided Positive None].
Proof.
  destruct (X10_positive_toggles demoSanitize demoPath demoProps
              initialWorld 3 eq_refl) as [Hs He].
  split; [reflexivity|]. split; [exact Hs | exact He].
Defined.

(** A draft survives a cancel. *)
Lemma X11_witness :
  onFeedbackProvided demoProps = true /\
  textFieldValue
    (demoRender
       (ui (demoRun [ClickDislike; ChangeMessage (Some (lit "too slow"));
                     ClickCancel; ClickDislike])))
    = lit "too slow".
Proof.
  destruct (X11_cancel_keeps_draft_submit_clears demoSanitize demoPath
              demoProps
              (demoRun [ClickDislike; ChangeMessage (Some (lit "too slow"))])
              ClickCancel eq_refl (or_introl eq_refl))
    as [[_ Hdraft] _].
  split; [reflexivity | exact Hdraft].
Defined.

(** Two copies and then 2000 ms of nothing. *)
Lemma X13_witness :
  (2000 <= total [1500; 500])%N /\
  copied
    (ui (run demoSanitize demoPath demoProps
           (demoRun [ClickCopy; ClipboardFulfilled; Elapse 1999;
                     ClickCopy; ClipboardFulfilled])
           (map Elapse [1500; 500]%N))) = false.
Proof.
  assert (H : (2000 <= total [1500; 500])%N) by (vm_compute; discriminate).
  split; [exact H|].
  exact (X13_copied_flag_never_sticks demoSanitize demoPath demoProps
           [ClickCopy; ClipboardFulfilled; Elapse 1999;
            ClickCopy; ClipboardFulfilled] [1500; 500]%N H).
Defined.

(** A second copy 1500 ms after the first: the flag is down 500 ms
    later. *)
Lemma X14_witness :
  timers initialWorld = [] /\
  (1500 < 2000)%N /\
  copied (ui (demoRun [ClickCopy; ClipboardFulfilled; Elapse 1500;
                       ClickCopy; ClipboardFulfilled; Elapse 499])) = true /\
  copied (ui (demoRun [ClickCopy; ClipboardFulfilled; Elapse 1500;
                       ClickCopy; ClipboardFulfilled; Elapse 500])) = false.
Proof.
  split; [reflexivity|]. split; [reflexivity|]. split.
  - exact (proj2 (X14_second_copy_does_not_prolong demoSanitize demoPath
                    demoProps initialWorld 1500%N [499%N] eq_refl eq_refl)).
  - exact (proj2 (X14_second_copy_does_not_prolong demoSanitize demoPath
                    demoProps initialWorld 1500%N [500%N] eq_refl eq_refl)).
Defined.

(** The message goes out with the spaces typed around it. *)
Lemma X15_witness :
  onFeedbackProvided demoProps = true /\
  effects (demoRun [ClickDislike; ChangeMessage (Some (lit "x"));
                    ChangeMessage None;
                    ChangeMessage (Some (lit " too slow ")); ClickSubmit])
    = [FeedbackProvided Negative (Some (lit " too slow "))].
Proof.
  split; [reflexivity|].
  apply (X15_last_typed_message_sent_verbatim demoSanitize demoPath
           demoProps initialWorld [Some (lit "x"); None] (lit " too slow "));
    [reflexivity | discriminate].
Defined.
